(** * SynthMark command-line driver

    A shallow embedding of [apps/synthmark.cpp]: the [main] function that
    parses the command line, validates the benchmark parameters, builds one
    of the four test harnesses, runs it and returns its result code.

    The driver is sequential C++ with early [return]s and console output.
    It is modelled as a function from [argv] to the list of observable
    events (every [printf] and every call into the harness library, in
    program order) together with the value returned by [main]. *)

From Stdlib Require Import ZArith List String Ascii Bool Lia.
From Stdlib Require Import Floats Uint63.
Import ListNotations.

Local Open Scope string_scope.
Local Open Scope Z_scope.

(** ** C strings and [atoi] *)

Module CLib.

(** [s[i]] for a NUL-terminated string: the terminator is read one past
    the last character.  The driver never indexes further than that. *)
Definition char_at (s : string) (i : nat) : ascii :=
  match String.get i s with
  | Some c => c
  | None => Ascii.zero
  end.

(** [&s[n]]: the string that starts at index [n]. *)
Fixpoint from (n : nat) (s : string) : string :=
  match n, s with
  | O, _ => s
  | S n', String _ r => from n' r
  | S _, EmptyString => EmptyString
  end.

(** [isspace] in the C locale: space and the controls 9 to 13. *)
Definition isspace (c : ascii) : bool :=
  let n := Z.of_nat (nat_of_ascii c) in
  (n =? 32) || ((9 <=? n) && (n <=? 13)).

Definition isdigit (c : ascii) : bool :=
  let n := Z.of_nat (nat_of_ascii c) in
  (48 <=? n) && (n <=? 57).

Definition digit_value (c : ascii) : Z := Z.of_nat (nat_of_ascii c) - 48.

Fixpoint skip_spaces (s : string) : string :=
  match s with
  | String c r => if isspace c then skip_spaces r else s
  | EmptyString => s
  end.

(** The value of the longest prefix of decimal digits, accumulated from
    [acc]; the value is 0 when there is no digit. *)
Fixpoint read_digits (acc : Z) (s : string) : Z :=
  match s with
  | String c r =>
      if isdigit c then read_digits (10 * acc + digit_value c) r else acc
  | EmptyString => acc
  end.

(** White space, an optional sign, then digits: the mathematical value
    that [strtol(s, NULL, 10)] converts. *)
Definition parse_decimal (s : string) : Z :=
  match skip_spaces s with
  | String c r =>
      if (c =? "-")%char then - read_digits 0 r
      else if (c =? "+")%char then read_digits 0 r
      else read_digits 0 (String c r)
  | EmptyString => 0
  end.

Definition INT_MIN : Z := - 2 ^ 31.
Definition INT_MAX : Z := 2 ^ 31 - 1.
Definition LONG_MIN : Z := - 2 ^ 63.
Definition LONG_MAX : Z := 2 ^ 63 - 1.

(** [strtol] saturates at the bounds of [long]. *)
Definition strtol (s : string) : Z :=
  Z.max LONG_MIN (Z.min LONG_MAX (parse_decimal s)).

(** Conversion of a [long] to [int]: the low 32 bits, two's complement. *)
Definition to_int (z : Z) : Z := (z + 2 ^ 31) mod 2 ^ 32 - 2 ^ 31.

(** [atoi(s)] is [(int) strtol(s, NULL, 10)].  C leaves the result
    undefined when the value does not fit an [int]; the model follows the
    usual LP64 library there (saturate as [long], then keep 32 bits).
    None of the properties below depends on that choice beyond the
    result being an [int]. *)
Definition atoi (s : string) : Z := to_int (strtol s).

(** Whether [atoi] finds a number in [s]: a digit follows the white
    space and the optional sign. *)
Definition convertible (s : string) : bool :=
  match skip_spaces s with
  | String c r =>
      if ((c =? "-")%char || (c =? "+")%char)%bool then
        match r with
        | String d _ => isdigit d
        | EmptyString => false
        end
      else isdigit c
  | EmptyString => false
  end.

(** Conversion of an [int] to [double] (exact for every 32-bit value). *)
Definition double_of_int (z : Z) : float :=
  if z <? 0 then PrimFloat.opp (PrimFloat.of_uint63 (Uint63.of_Z (- z)))
  else PrimFloat.of_uint63 (Uint63.of_Z z).

(** The [double] literals of the driver: [0.01] is not representable and
    denotes the nearest binary64 value. *)
Definition lit_0_01 : float := 0x1.47ae147ae147bp-7%float.
Definition lit_1000_0 : float := 1000%float.

End CLib.
Import CLib.

(** ** Constants of [SynthMark.h]

    The header is not part of the driver; its macros are taken as a
    parameter.  [TARGET_CPU_PERCENT] stands for the constant expression
    [(int)(100 * SYNTHMARK_TARGET_CPU_LOAD)]. *)

Record Constants : Type := {
  SYNTHMARK_MAJOR_VERSION : Z;
  SYNTHMARK_MINOR_VERSION : Z;
  SYNTHMARK_FRAMES_PER_BURST : Z;
  SYNTHMARK_SAMPLE_RATE : Z;
  SYNTHMARK_MAX_VOICES : Z;
  SYNTHMARK_CPU_UNSPECIFIED : Z;
  TARGET_CPU_PERCENT : Z
}.

(** ** The harness library

    [VirtualAudioSink], [SynthMarkResult] and the harness classes are
    defined in headers the driver only calls.  Their objects are abstract;
    every method is a function on the object it mutates.  A harness keeps
    pointers to the sink and to the result given to its constructor:
    [runTest] therefore maps the shared result object to its new value. *)

Inductive HarnessKind : Type :=
| VoiceMark
| LatencyMark
| JitterMark
| UtilizationMark.

Class HarnessLib : Type := {
  VirtualAudioSink : Type;
  SynthMarkResult : Type;
  TestHarnessBase : Type;
  (* default constructors *)
  new_sink : VirtualAudioSink;
  new_result : SynthMarkResult;
  setRequestedCpu : Z -> VirtualAudioSink -> VirtualAudioSink;
  (* new XxxMarkHarness(&audioSink, &result) *)
  new_harness : HarnessKind -> VirtualAudioSink -> TestHarnessBase;
  setTargetCpuLoad : float -> TestHarnessBase -> TestHarnessBase;
  setInitialVoiceCount : Z -> TestHarnessBase -> TestHarnessBase;
  setNumVoicesHigh : Z -> TestHarnessBase -> TestHarnessBase;
  setNumVoices : Z -> TestHarnessBase -> TestHarnessBase;
  setDelayNotesOn : Z -> TestHarnessBase -> TestHarnessBase;
  getName : TestHarnessBase -> string;
  runTest : TestHarnessBase -> Z -> Z -> Z -> SynthMarkResult -> SynthMarkResult;
  getResultMessage : SynthMarkResult -> string;
  getResultCode : SynthMarkResult -> Z
}.

(** ** Local variables of [main] *)

Record Config : Type := {
  percentCpu : Z;
  sampleRate : Z;
  framesPerBurst : Z;
  numSeconds : Z;
  numVoices : Z;
  numVoicesHigh : Z;
  numSecondsDelayNoteOn : Z;
  cpuAffinity : Z;
  testCode : ascii
}.

Definition set_percentCpu (v : Z) (c : Config) : Config :=
  {| percentCpu := v; sampleRate := sampleRate c;
     framesPerBurst := framesPerBurst c; numSeconds := numSeconds c;
     numVoices := numVoices c; numVoicesHigh := numVoicesHigh c;
     numSecondsDelayNoteOn := numSecondsDelayNoteOn c;
     cpuAffinity := cpuAffinity c; testCode := testCode c |}.

Definition set_sampleRate (v : Z) (c : Config) : Config :=
  {| percentCpu := percentCpu c; sampleRate := v;
     framesPerBurst := framesPerBurst c; numSeconds := numSeconds c;
     numVoices := numVoices c; numVoicesHigh := numVoicesHigh c;
     numSecondsDelayNoteOn := numSecondsDelayNoteOn c;
     cpuAffinity := cpuAffinity c; testCode := testCode c |}.

Definition set_framesPerBurst (v : Z) (c : Config) : Config :=
  {| percentCpu := percentCpu c; sampleRate := sampleRate c;
     framesPerBurst := v; numSeconds := numSeconds c;
     numVoices := numVoices c; numVoicesHigh := numVoicesHigh c;
     numSecondsDelayNoteOn := numSecondsDelayNoteOn c;
     cpuAffinity := cpuAffinity c; testCode := testCode c |}.

Definition set_numSeconds (v : Z) (c : Config) : Config :=
  {| percentCpu := percentCpu c; sampleRate := sampleRate c;
     framesPerBurst := framesPerBurst c; numSeconds := v;
     numVoices := numVoices c; numVoicesHigh := numVoicesHigh c;
     numSecondsDelayNoteOn := numSecondsDelayNoteOn c;
     cpuAffinity := cpuAffinity c; testCode := testCode c |}.

Definition set_numVoices (v : Z) (c : Config) : Config :=
  {| percentCpu := percentCpu c; sampleRate := sampleRate c;
     framesPerBurst := framesPerBurst c; numSeconds := numSeconds c;
     numVoices := v; numVoicesHigh := numVoicesHigh c;
     numSecondsDelayNoteOn := numSecondsDelayNoteOn c;
     cpuAffinity := cpuAffinity c; testCode := testCode c |}.

Definition set_numVoicesHigh (v : Z) (c : Config) : Config :=
  {| percentCpu := percentCpu c; sampleRate := sampleRate c;
     framesPerBurst := framesPerBurst c; numSeconds := numSeconds c;
     numVoices := numVoices c; numVoicesHigh := v;
     numSecondsDelayNoteOn := numSecondsDelayNoteOn c;
     cpuAffinity := cpuAffinity c; testCode := testCode c |}.

Definition set_numSecondsDelayNoteOn (v : Z) (c : Config) : Config :=
  {| percentCpu := percentCpu c; sampleRate := sampleRate c;
     framesPerBurst := framesPerBurst c; numSeconds := numSeconds c;
     numVoices := numVoices c; numVoicesHigh := numVoicesHigh c;
     numSecondsDelayNoteOn := v;
     cpuAffinity := cpuAffinity c; testCode := testCode c |}.

Definition set_cpuAffinity (v : Z) (c : Config) : Config :=
  {| percentCpu := percentCpu c; sampleRate := sampleRate c;
     framesPerBurst := framesPerBurst c; numSeconds := numSeconds c;
     numVoices := numVoices c; numVoicesHigh := numVoicesHigh c;
     numSecondsDelayNoteOn := numSecondsDelayNoteOn c;
     cpuAffinity := v; testCode := testCode c |}.

Definition set_testCode (v : ascii) (c : Config) : Config :=
  {| percentCpu := percentCpu c; sampleRate := sampleRate c;
     framesPerBurst := framesPerBurst c; numSeconds := numSeconds c;
     numVoices := numVoices c; numVoicesHigh := numVoicesHigh c;
     numSecondsDelayNoteOn := numSecondsDelayNoteOn c;
     cpuAffinity := cpuAffinity c; testCode := v |}.

(** ** Observable events and the control flow of [main] *)

Inductive PrintArg : Type :=
| AInt (z : Z)
| AChar (c : ascii)
| AStr (s : string)
| ADouble (x : float).

Inductive Flow (A : Type) : Type :=
| Next (a : A)
| Return (status : Z).
Arguments Next {A} a.
Arguments Return {A} status.

Section Driver.

Variable K : Constants.
Context {L : HarnessLib}.

(** One event per [printf], per stream operation and per call that
    builds, configures or runs an object of the harness library.  The
    read-only getters ([getName], [getResultMessage], [getResultCode])
    are not events: [main] uses them as values, where they are printed or
    returned.  A format string is kept as the source writes it, with its
    operands beside it. *)
Inductive Event : Type :=
| Printf (format : string) (args : list PrintArg)
| Fflush
| Cout (s : string)
| CallSetRequestedCpu (cpu : Z)
| Construct (k : HarnessKind)
| CallSetTargetCpuLoad (load : float)
| CallSetInitialVoiceCount (n : Z)
| CallSetNumVoicesHigh (n : Z)
| CallSetNumVoices (n : Z)
| CallSetDelayNotesOn (n : Z)
| CallRunTest (h : TestHarnessBase) (rate burst seconds : Z).

(** A computation emits events and either goes on with a value or leaves
    [main] through a [return] statement. *)
Definition Run (A : Type) : Type := (list Event * Flow A)%type.

Definition ret {A : Type} (a : A) : Run A := ([], Next a).

Definition bind {A B : Type} (m : Run A) (f : A -> Run B) : Run B :=
  match m with
  | (t, Next a) => let (t', r) := f a in ((t ++ t')%list, r)
  | (t, Return s) => (t, Return s)
  end.

Definition emit (e : Event) : Run unit := ([e], Next tt).

Definition return_ {A : Type} (status : Z) : Run A := ([], Return status).

(** A call into the library: the event, then the object it leaves. *)
Definition call {A : Type} (e : Event) (a : A) : Run A := ([e], Next a).

Definition printf (format : string) (args : list PrintArg) : Run unit :=
  emit (Printf format args).

(** The value [main] returns, whichever way it is left. *)
Definition exit_status (r : Run Z) : Z :=
  match snd r with
  | Next s => s
  | Return s => s
  end.

Definition trace {A : Type} (r : Run A) : list Event := fst r.

Notation "x <- m ;; k" := (bind m (fun x => k))
  (at level 61, m at next level, right associativity).
Notation "m ;; k" := (bind m (fun _ => k))
  (at level 61, right associativity).

(** *** Defaults *)

Definition DEFAULT_TEST_CODE : ascii := "v".
Definition DEFAULT_SECONDS : Z := 10.
Definition DEFAULT_FRAMES_PER_BURST : Z := SYNTHMARK_FRAMES_PER_BURST K.
Definition DEFAULT_NUM_VOICES : Z := 8.
Definition DEFAULT_NOTE_ON_DELAY : Z := 0.
Definition DEFAULT_PERCENT_CPU : Z := TARGET_CPU_PERCENT K.

Definition initial_config : Config :=
  {| percentCpu := DEFAULT_PERCENT_CPU;
     sampleRate := SYNTHMARK_SAMPLE_RATE K;
     framesPerBurst := DEFAULT_FRAMES_PER_BURST;
     numSeconds := DEFAULT_SECONDS;
     numVoices := DEFAULT_NUM_VOICES;
     numVoicesHigh := 0;
     numSecondsDelayNoteOn := DEFAULT_NOTE_ON_DELAY;
     cpuAffinity := SYNTHMARK_CPU_UNSPECIFIED K;
     testCode := DEFAULT_TEST_CODE |}.

(** *** [usage] *)

Definition usage (name : string) : Run unit :=
  printf "SynthMark version %d.%d\n"
    [AInt (SYNTHMARK_MAJOR_VERSION K); AInt (SYNTHMARK_MINOR_VERSION K)] ;;
  printf ("%s -t{test} -n{numVoices} -d{noteOnDelay} -p{percentCPU} -r{sampleRate}"
          ++ " -s{seconds} -b{burstSize} -c{cpuAffinity}\n") [AStr name] ;;
  printf "    -t{test}, v=voice, l=latency, j=jitter, u=utilization, default is %c\n"
    [AChar DEFAULT_TEST_CODE] ;;
  printf "    -n{numVoices} to render, default = %d\n" [AInt DEFAULT_NUM_VOICES] ;;
  printf "    -N{numVoices} to render for toggling high load, LatencyMark only\n" [] ;;
  printf "    -d{noteOnDelay} seconds to delay the first NoteOn, default = %d\n"
    [AInt DEFAULT_NOTE_ON_DELAY] ;;
  printf "    -p{percentCPU} target load, default = %d\n" [AInt DEFAULT_PERCENT_CPU] ;;
  printf "    -r{sampleRate} should be typical, 44100, 48000, etc. default is %d\n"
    [AInt (SYNTHMARK_SAMPLE_RATE K)] ;;
  printf "    -s{seconds} to run the test, latencyMark may take longer, default is %d\n"
    [AInt DEFAULT_SECONDS] ;;
  printf "    -b{burstSize} frames read by virtual hardware at one time , default = %d\n"
    [AInt DEFAULT_FRAMES_PER_BURST] ;;
  printf "    -c{cpuAffinity} index of CPU to run on, default = UNSPECIFIED\n" [].

(** *** Command line *)

(** The body of the [for] loop: one argument.  [arg[1]] is read only
    when [arg[0]] is a dash, and [arg[2]] only when [arg[1]] is one of
    the letters below, so no read goes past the terminator. *)
Definition parse_arg (name arg : string) (cfg : Config) : Run Config :=
  if (char_at arg 0 =? "-")%char then
    let sw := char_at arg 1 in
    if (sw =? "c")%char then ret (set_cpuAffinity (atoi (from 2 arg)) cfg)
    else if (sw =? "p")%char then ret (set_percentCpu (atoi (from 2 arg)) cfg)
    else if (sw =? "n")%char then ret (set_numVoices (atoi (from 2 arg)) cfg)
    else if (sw =? "N")%char then ret (set_numVoicesHigh (atoi (from 2 arg)) cfg)
    else if (sw =? "d")%char then
      ret (set_numSecondsDelayNoteOn (atoi (from 2 arg)) cfg)
    else if (sw =? "r")%char then ret (set_sampleRate (atoi (from 2 arg)) cfg)
    else if (sw =? "s")%char then ret (set_numSeconds (atoi (from 2 arg)) cfg)
    else if (sw =? "b")%char then ret (set_framesPerBurst (atoi (from 2 arg)) cfg)
    else if (sw =? "t")%char then ret (set_testCode (char_at arg 2) cfg)
    else if ((sw =? "h")%char || (sw =? "?")%char)%bool then
      usage name ;;
      return_ 0
    else
      printf "Unrecognized switch: %s\n" [AStr arg] ;;
      usage name ;;
      return_ 1
  else
    printf "Unrecognized argument: %s\n" [AStr arg] ;;
    usage name ;;
    return_ 1.

(** The loop over [argv[1]], ..., [argv[argc - 1]]. *)
Fixpoint parse_args (name : string) (args : list string) (cfg : Config)
  : Run Config :=
  match args with
  | [] => ret cfg
  | arg :: rest =>
      cfg' <- parse_arg name arg cfg ;;
      parse_args name rest cfg'
  end.

(** *** Validation: the conditions of the seven [if] statements *)

Definition bad_percentCpu (cfg : Config) : bool :=
  (percentCpu cfg <? 1) || (percentCpu cfg >? 100).

Definition bad_numVoices (cfg : Config) : bool :=
  ((numVoices cfg <? 1) && (numVoicesHigh cfg <=? 0))
  || (numVoices cfg <? 0)
  || (numVoices cfg >? SYNTHMARK_MAX_VOICES K).

Definition bad_numVoicesHigh (cfg : Config) : bool :=
  negb (numVoicesHigh cfg =? 0) && (numVoicesHigh cfg <? numVoices cfg).

Definition high_without_latency (cfg : Config) : bool :=
  negb (numVoicesHigh cfg =? 0) && negb (testCode cfg =? "l")%char.

Definition bad_numSeconds (cfg : Config) : bool :=
  numSeconds cfg <? 1.

Definition bad_noteOnDelay (cfg : Config) : bool :=
  (numSecondsDelayNoteOn cfg <? 0)
  || (numSecondsDelayNoteOn cfg >? numSeconds cfg).

Definition bad_framesPerBurst (cfg : Config) : bool :=
  framesPerBurst cfg <? 4.

Definition validate (name : string) (cfg : Config) : Run unit :=
  (if bad_percentCpu cfg then
     printf "Invalid percent CPU = %d\n" [AInt (percentCpu cfg)] ;;
     usage name ;;
     return_ 1
   else ret tt) ;;
  (if bad_numVoices cfg then
     printf "Invalid num voices = %d\n" [AInt (numVoices cfg)] ;;
     usage name ;;
     return_ 1
   else ret tt) ;;
  (if bad_numVoicesHigh cfg then
     printf "Invalid num voices high = %d\n" [AInt (numVoicesHigh cfg)] ;;
     usage name ;;
     return_ 1
   else ret tt) ;;
  (if high_without_latency cfg then
     printf "Num voices high only supported for LatencyMark\n" [] ;;
     usage name ;;
     return_ 1
   else ret tt) ;;
  (if bad_numSeconds cfg then
     printf "Invalid duration in seconds = %d\n" [AInt (numSeconds cfg)] ;;
     usage name ;;
     return_ 1
   else ret tt) ;;
  (if bad_noteOnDelay cfg then
     printf "Invalid delay for note on = %d\n" [AInt (numSecondsDelayNoteOn cfg)] ;;
     return_ 1
   else ret tt) ;;
  (if bad_framesPerBurst cfg then
     printf "Block size too small = %d\n" [AInt (framesPerBurst cfg)] ;;
     usage name ;;
     return_ 1
   else ret tt).

(** *** The harness selected by the test code *)

Definition create_harness (name : string) (cfg : Config)
    (audioSink : VirtualAudioSink) : Run TestHarnessBase :=
  let code := testCode cfg in
  if (code =? "v")%char then
    voiceHarness <- call (Construct VoiceMark) (new_harness VoiceMark audioSink) ;;
    voiceHarness <-
      call (CallSetTargetCpuLoad
              (PrimFloat.mul (double_of_int (percentCpu cfg)) lit_0_01))
           (setTargetCpuLoad
              (PrimFloat.mul (double_of_int (percentCpu cfg)) lit_0_01)
              voiceHarness) ;;
    call (CallSetInitialVoiceCount (numVoices cfg))
         (setInitialVoiceCount (numVoices cfg) voiceHarness)
  else if (code =? "l")%char then
    latencyHarness <-
      call (Construct LatencyMark) (new_harness LatencyMark audioSink) ;;
    call (CallSetNumVoicesHigh (numVoicesHigh cfg))
         (setNumVoicesHigh (numVoicesHigh cfg) latencyHarness)
  else if (code =? "j")%char then
    call (Construct JitterMark) (new_harness JitterMark audioSink)
  else if (code =? "u")%char then
    utilizationHarness <-
      call (Construct UtilizationMark) (new_harness UtilizationMark audioSink) ;;
    call (CallSetNumVoices (numVoices cfg))
         (setNumVoices (numVoices cfg) utilizationHarness)
  else
    printf "ERROR - unrecognized testCode = %c\n" [AChar code] ;;
    usage name ;;
    return_ 1.

(** *** [main] *)

(** [argv[0]] is only ever printed; it is the empty string here when
    [argc] is 0. *)
Definition main (argv : list string) : Run Z :=
  let name := hd "" argv in
  printf "--- SynthMark V%d.%d ---\n"
    [AInt (SYNTHMARK_MAJOR_VERSION K); AInt (SYNTHMARK_MINOR_VERSION K)] ;;
  cfg <- parse_args name (tl argv) initial_config ;;
  validate name cfg ;;
  audioSink <- call (CallSetRequestedCpu (cpuAffinity cfg))
                    (setRequestedCpu (cpuAffinity cfg) new_sink) ;;
  harness <- create_harness name cfg audioSink ;;
  harness <- call (CallSetNumVoices (numVoices cfg))
                  (setNumVoices (numVoices cfg) harness) ;;
  harness <- call (CallSetDelayNotesOn (numSecondsDelayNoteOn cfg))
                  (setDelayNotesOn (numSecondsDelayNoteOn cfg) harness) ;;
  printf "  test name      = %s\n" [AStr (getName harness)] ;;
  printf "  numVoices      = %6d\n" [AInt (numVoices cfg)] ;;
  printf "  numVoicesHigh  = %6d\n" [AInt (numVoicesHigh cfg)] ;;
  printf "  noteOnDelay    = %6d\n" [AInt (numSecondsDelayNoteOn cfg)] ;;
  printf "  targetCpu%c     = %6d\n" [AChar "%"; AInt (percentCpu cfg)] ;;
  printf "  framesPerBurst = %6d\n" [AInt (framesPerBurst cfg)] ;;
  printf "  msecPerBurst   = %6.2f\n"
    [ADouble (PrimFloat.div
                (PrimFloat.mul (double_of_int (framesPerBurst cfg)) lit_1000_0)
                (double_of_int (sampleRate cfg)))] ;;
  printf "  cpuAffinity    = %6d\n" [AInt (cpuAffinity cfg)] ;;
  printf "--- wait at least %d seconds for benchmark to complete ---\n"
    [AInt (numSeconds cfg)] ;;
  emit Fflush ;;
  result <- call (CallRunTest harness (sampleRate cfg) (framesPerBurst cfg)
                    (numSeconds cfg))
                 (runTest harness (sampleRate cfg) (framesPerBurst cfg)
                    (numSeconds cfg) new_result) ;;
  printf "RESULTS BEGIN\n" [] ;;
  emit (Cout (getResultMessage result)) ;;
  printf "RESULTS END\n" [] ;;
  printf "Benchmark complete.\n" [] ;;
  return_ (getResultCode result).

(** *** What a trace says about the harness *)

Definition constructed (t : list Event) : list HarnessKind :=
  flat_map (fun e => match e with Construct k => [k] | _ => [] end) t.

Definition test_runs (t : list Event) : list (Z * Z * Z) :=
  flat_map (fun e => match e with
                     | CallRunTest _ r b s => [(r, b, s)]
                     | _ => []
                     end) t.

Definition target_loads (t : list Event) : list float :=
  flat_map (fun e => match e with CallSetTargetCpuLoad x => [x] | _ => [] end) t.

Definition is_print (e : Event) : bool :=
  match e with
  | Printf _ _ => true
  | _ => false
  end.

(** *** Vocabulary for the statements *)

(** The values of the locals when the argument loop runs to its end. *)
Definition settings (argv : list string) : option Config :=
  match parse_args (hd "" argv) (tl argv) initial_config with
  | (_, Next cfg) => Some cfg
  | (_, Return _) => None
  end.

(** No validation condition fires. *)
Definition valid (cfg : Config) : bool :=
  negb (bad_percentCpu cfg || bad_numVoices cfg || bad_numVoicesHigh cfg
        || high_without_latency cfg || bad_numSeconds cfg
        || bad_noteOnDelay cfg || bad_framesPerBurst cfg).

Definition is_help (arg : string) : bool :=
  (char_at arg 0 =? "-")%char
  && ((char_at arg 1 =? "h")%char || (char_at arg 1 =? "?")%char).

Definition is_setting (arg : string) : bool :=
  (char_at arg 0 =? "-")%char
  && existsb (Ascii.eqb (char_at arg 1))
       ["c"; "p"; "n"; "N"; "d"; "r"; "s"; "b"; "t"]%char.

Definition recognized (arg : string) : bool := is_setting arg || is_help arg.

(** The harness class each test code stands for. *)
Definition selected (c : ascii) : option HarnessKind :=
  if (c =? "v")%char then Some VoiceMark
  else if (c =? "l")%char then Some LatencyMark
  else if (c =? "j")%char then Some JitterMark
  else if (c =? "u")%char then Some UtilizationMark
  else None.

(** The operand of [setTargetCpuLoad]: [percentCpu * 0.01]. *)
Definition target_load (cfg : Config) : float :=
  PrimFloat.mul (double_of_int (percentCpu cfg)) lit_0_01.

(** A trace without any harness constructed or run. *)
Definition idle (t : list Event) : Prop :=
  constructed t = [] /\ test_runs t = [] /\ target_loads t = [].

(** [main] returned 1 and neither built a harness nor ran a test. *)
Definition rejected (r : Run Z) : Prop :=
  exit_status r = 1 /\ constructed (trace r) = [] /\ test_runs (trace r) = [].

(** The banner and the usage text, as event lists. *)
Definition banner : list Event :=
  [Printf "--- SynthMark V%d.%d ---\n"
     [AInt (SYNTHMARK_MAJOR_VERSION K); AInt (SYNTHMARK_MINOR_VERSION K)]].

Definition usage_text (name : string) : list Event := trace (usage name).

(** The CPU indices given to [setRequestedCpu], the strings sent to
    [std::cout], and the recorded calls (constructors, setters, [runTest])
    without the console output between them. *)
Definition cpu_requests (t : list Event) : list Z :=
  flat_map (fun e => match e with CallSetRequestedCpu c => [c] | _ => [] end) t.

Definition result_messages (t : list Event) : list string :=
  flat_map (fun e => match e with Cout s => [s] | _ => [] end) t.

Definition is_output (e : Event) : bool :=
  match e with
  | Printf _ _ | Fflush | Cout _ => true
  | _ => false
  end.

Definition calls (t : list Event) : list Event :=
  filter (fun e => negb (is_output e)) t.

(** The last [n] events of a trace. *)
Definition last_events (n : nat) (t : list Event) : list Event :=
  skipn (List.length t - n) t.

(** What one setting switch does to the locals: the configuration
    [parse_arg] goes on with ([cfg] itself when it leaves [main]). *)
Definition setting_effect (name arg : string) (cfg : Config) : Config :=
  match parse_arg name arg cfg with
  | (_, Next cfg') => cfg'
  | (_, Return _) => cfg
  end.

(** Some argument of [args] has [c] as its switch letter. *)
Definition mentions (c : ascii) (args : list string) : bool :=
  existsb (fun arg => (char_at arg 1 =? c)%char) args.

(** The switch letters whose operand goes through [atoi]. *)
Definition numeric_switch (c : ascii) : bool :=
  existsb (Ascii.eqb c) ["c"; "p"; "n"; "N"; "d"; "r"; "s"; "b"]%char.

(** The text [t] starts with a decimal digit. *)
Definition digit_ahead (t : string) : bool :=
  match t with
  | String d _ => isdigit d
  | EmptyString => false
  end.

End Driver.

Arguments Printf {L} format args.
Arguments Fflush {L}.
Arguments Cout {L} s.
Arguments CallSetRequestedCpu {L} cpu.
Arguments Construct {L} k.
Arguments CallSetTargetCpuLoad {L} load.
Arguments CallSetInitialVoiceCount {L} n.
Arguments CallSetNumVoicesHigh {L} n.
Arguments CallSetNumVoices {L} n.
Arguments CallSetDelayNotesOn {L} n.
Arguments CallRunTest {L} h rate burst seconds.

(** ** An instance for concrete runs

    One possible header and a stand-in for the harness library, used to
    evaluate [main] on concrete command lines.  The stand-in harness
    records what the driver tells it; its [runTest] reports failure code 2
    when asked for more than 100 voices and passes otherwise. *)

Module Sample.

Definition header : Constants :=
  {| SYNTHMARK_MAJOR_VERSION := 1;
     SYNTHMARK_MINOR_VERSION := 6;
     SYNTHMARK_FRAMES_PER_BURST := 64;
     SYNTHMARK_SAMPLE_RATE := 48000;
     SYNTHMARK_MAX_VOICES := 512;
     SYNTHMARK_CPU_UNSPECIFIED := -1;
     TARGET_CPU_PERCENT := 50 |}.

Record Harness : Type := {
  kind : HarnessKind;
  cpu : Z;
  voices : Z;
  voicesHigh : Z;
  delay : Z
}.

Definition kind_name (k : HarnessKind) : string :=
  match k with
  | VoiceMark => "VoiceMark"
  | LatencyMark => "LatencyMark"
  | JitterMark => "JitterMark"
  | UtilizationMark => "UtilizationMark"
  end.

#[export] Instance lib : HarnessLib :=
  {| VirtualAudioSink := Z;
     SynthMarkResult := Z * string;
     TestHarnessBase := Harness;
     new_sink := -1;
     new_result := (0, "");
     setRequestedCpu := fun c _ => c;
     new_harness := fun k sink =>
       {| kind := k; cpu := sink; voices := 0; voicesHigh := 0; delay := 0 |};
     setTargetCpuLoad := fun _ h => h;
     setInitialVoiceCount := fun n h =>
       {| kind := kind h; cpu := cpu h; voices := n;
          voicesHigh := voicesHigh h; delay := delay h |};
     setNumVoicesHigh := fun n h =>
       {| kind := kind h; cpu := cpu h; voices := voices h;
          voicesHigh := n; delay := delay h |};
     setNumVoices := fun n h =>
       {| kind := kind h; cpu := cpu h; voices := n;
          voicesHigh := voicesHigh h; delay := delay h |};
     setDelayNotesOn := fun n h =>
       {| kind := kind h; cpu := cpu h; voices := voices h;
          voicesHigh := voicesHigh h; delay := n |};
     getName := fun h => kind_name (kind h);
     runTest := fun h _ _ _ _ =>
       if voices h >? 100 then (2, "too many voices") else (0, "ok");
     getResultMessage := snd;
     getResultCode := fst |}.

Definition run (argv : list string) : Run Z := main header argv.

Definition parsed (argv : list string) : option Config := settings header argv.

End Sample.

(** * Properties *)

(** ** [atoi] *)

Lemma to_int_range (z : Z) : INT_MIN <= to_int z <= INT_MAX.
Proof.
  unfold to_int, INT_MIN, INT_MAX.
  pose proof (Z.mod_pos_bound (z + 2 ^ 31) (2 ^ 32) ltac:(lia)). lia.
Qed.

Lemma atoi_is_int (s : string) : INT_MIN <= atoi s <= INT_MAX.
Proof. apply to_int_range. Qed.

Lemma read_digits_none (s : string) :
  match s with String d _ => isdigit d | EmptyString => false end = false ->
  read_digits 0 s = 0.
Proof.
  destruct s as [|d r]; [reflexivity|]. cbn [read_digits]. now intros ->.
Qed.

(** Without a number to convert, [atoi] returns 0. *)
Lemma atoi_unparsable (s : string) : convertible s = false -> atoi s = 0.
Proof.
  unfold convertible, atoi, strtol, parse_decimal.
  destruct (skip_spaces s) as [|c r]; [reflexivity|].
  destruct (c =? "-")%char; cbn [orb].
  - intros H. now rewrite (read_digits_none r H).
  - destruct (c =? "+")%char; intros H.
    + now rewrite (read_digits_none r H).
    + now rewrite (read_digits_none (String c r) H).
Qed.

Lemma double_of_percent (p : Z) :
  1 <= p <= 100 ->
  PrimFloat.ltb 0 (PrimFloat.mul (double_of_int p) lit_0_01) = true
  /\ PrimFloat.leb (PrimFloat.mul (double_of_int p) lit_0_01) 1 = true.
Proof.
  intros Hp.
  assert (Hall : forallb
            (fun q => PrimFloat.ltb 0 (PrimFloat.mul (double_of_int q) lit_0_01)
                      && PrimFloat.leb (PrimFloat.mul (double_of_int q) lit_0_01) 1)
            (map Z.of_nat (seq 1 100)) = true)
    by (vm_compute; reflexivity).
  rewrite forallb_forall in Hall.
  apply andb_true_iff, Hall, in_map_iff.
  exists (Z.to_nat p). split; [lia|]. apply in_seq. lia.
Qed.

(** ** The driver *)

Section DriverFacts.

Variable K : Constants.
Context {L : HarnessLib}.

Lemma usage_runs (name : string) : usage K name = (usage_text K name, Next tt).
Proof. reflexivity. Qed.

Lemma usage_text_prints (name : string) :
  forallb is_print (usage_text K name) = true.
Proof. reflexivity. Qed.

(** A trace of [printf]s holds no call into the harness library. *)
Lemma prints_call_nothing (t : list Event) :
  forallb is_print t = true ->
  constructed t = [] /\ test_runs t = [] /\ target_loads t = [].
Proof.
  induction t as [|e t IH]; [easy|].
  destruct e; cbn; try discriminate. exact IH.
Qed.

(** *** The argument loop *)

Lemma parse_arg_cases (name arg : string) (cfg : Config) :
  (is_setting arg = true
   /\ exists cfg', parse_arg K name arg cfg = ([], Next cfg'))
  \/ (is_help arg = true
      /\ parse_arg K name arg cfg = (usage_text K name, Return 0))
  \/ (recognized arg = false
      /\ exists t, parse_arg K name arg cfg = (t, Return 1)
                   /\ forallb is_print t = true).
Proof.
  unfold parse_arg, recognized, is_setting, is_help.
  destruct (char_at arg 0 =? "-")%char;
    [|right; right; split; [reflexivity | eexists; split; reflexivity]].
  cbn [andb existsb].
  repeat match goal with
         | |- context [(char_at arg 1 =? ?c)%char] =>
             destruct (char_at arg 1 =? c)%char;
             [ solve [ left; split; [reflexivity | eexists; reflexivity]
                     | right; left; split; reflexivity ] | ]
         end.
  right; right; split; [reflexivity | eexists; split; reflexivity].
Qed.

Lemma parse_args_flow (name : string) (args : list string) (cfg : Config) :
  (exists cfg', parse_args K name args cfg = ([], Next cfg'))
  \/ (exists t s, parse_args K name args cfg = (t, Return s)
                  /\ forallb is_print t = true /\ (s = 0 \/ s = 1)).
Proof.
  revert cfg. induction args as [|arg rest IH]; intros cfg.
  - left. now exists cfg.
  - cbn [parse_args].
    destruct (parse_arg_cases name arg cfg)
      as [[_ [cfg' E]] | [[_ E] | [_ [t [E Ht]]]]]; rewrite E; cbn [bind].
    + destruct (IH cfg') as [[c E'] | [t [s [E' H]]]]; rewrite E'.
      * left. now exists c.
      * right. now exists t, s.
    + right. exists (usage_text K name), 0. auto using usage_text_prints.
    + right. exists t, 1. auto.
Qed.

Lemma settings_parse (argv : list string) (cfg : Config) :
  settings K argv = Some cfg ->
  parse_args K (hd "" argv) (tl argv) (initial_config K) = ([], Next cfg).
Proof.
  unfold settings.
  destruct (parse_args_flow (hd "" argv) (tl argv) (initial_config K))
    as [[c E] | [t [s [E _]]]]; rewrite E; [|discriminate].
  now intros [= ->].
Qed.

(** *** Validation *)

Lemma validate_accepts (name : string) (cfg : Config) :
  valid K cfg = true -> validate K name cfg = ([], Next tt).
Proof.
  unfold valid, validate. intros H. apply negb_true_iff in H.
  destruct (bad_percentCpu cfg); [discriminate|].
  destruct (bad_numVoices K cfg); [discriminate|].
  destruct (bad_numVoicesHigh cfg); [discriminate|].
  destruct (high_without_latency cfg); [discriminate|].
  destruct (bad_numSeconds cfg); [discriminate|].
  destruct (bad_noteOnDelay cfg); [discriminate|].
  destruct (bad_framesPerBurst cfg); [discriminate|].
  reflexivity.
Qed.

Lemma validate_rejects (name : string) (cfg : Config) :
  valid K cfg = false ->
  exists t, validate K name cfg = (t, Return 1) /\ forallb is_print t = true.
Proof.
  unfold valid, validate. intros H. apply negb_false_iff in H.
  destruct (bad_percentCpu cfg); [eexists; split; reflexivity|].
  destruct (bad_numVoices K cfg); [eexists; split; reflexivity|].
  destruct (bad_numVoicesHigh cfg); [eexists; split; reflexivity|].
  destruct (high_without_latency cfg); [eexists; split; reflexivity|].
  destruct (bad_numSeconds cfg); [eexists; split; reflexivity|].
  destruct (bad_noteOnDelay cfg); [eexists; split; reflexivity|].
  destruct (bad_framesPerBurst cfg); [eexists; split; reflexivity|].
  discriminate.
Qed.

(** Each condition, in arithmetic. *)

Lemma bad_percentCpu_false (cfg : Config) :
  bad_percentCpu cfg = false <-> 1 <= percentCpu cfg <= 100.
Proof.
  unfold bad_percentCpu. rewrite Z.gtb_ltb.
  destruct (Z.ltb_spec (percentCpu cfg) 1), (Z.ltb_spec 100 (percentCpu cfg));
    cbn; split; intros; try discriminate; try lia; reflexivity.
Qed.

Lemma bad_numVoices_false (cfg : Config) :
  bad_numVoices K cfg = false
  <-> 0 <= numVoices cfg <= SYNTHMARK_MAX_VOICES K
      /\ (1 <= numVoices cfg \/ 0 < numVoicesHigh cfg).
Proof.
  unfold bad_numVoices. rewrite Z.gtb_ltb.
  destruct (Z.ltb_spec (numVoices cfg) 1), (Z.leb_spec (numVoicesHigh cfg) 0),
    (Z.ltb_spec (numVoices cfg) 0),
    (Z.ltb_spec (SYNTHMARK_MAX_VOICES K) (numVoices cfg));
    cbn; split; intros; try discriminate; try lia; reflexivity.
Qed.

Lemma bad_numVoicesHigh_true (cfg : Config) :
  bad_numVoicesHigh cfg = true
  <-> numVoicesHigh cfg <> 0 /\ numVoicesHigh cfg < numVoices cfg.
Proof.
  unfold bad_numVoicesHigh.
  destruct (Z.eqb_spec (numVoicesHigh cfg) 0),
    (Z.ltb_spec (numVoicesHigh cfg) (numVoices cfg));
    cbn; split; intros; try discriminate; try lia; reflexivity.
Qed.

Lemma high_without_latency_true (cfg : Config) :
  high_without_latency cfg = true
  <-> numVoicesHigh cfg <> 0 /\ testCode cfg <> "l"%char.
Proof.
  unfold high_without_latency.
  destruct (Z.eqb_spec (numVoicesHigh cfg) 0),
    (Ascii.eqb_spec (testCode cfg) "l");
    cbn; split; intros; try discriminate; try tauto; reflexivity.
Qed.

Lemma bad_numSeconds_true (cfg : Config) :
  bad_numSeconds cfg = true <-> numSeconds cfg < 1.
Proof. unfold bad_numSeconds. apply Z.ltb_lt. Qed.

Lemma bad_noteOnDelay_false (cfg : Config) :
  bad_noteOnDelay cfg = false
  <-> 0 <= numSecondsDelayNoteOn cfg <= numSeconds cfg.
Proof.
  unfold bad_noteOnDelay. rewrite Z.gtb_ltb.
  destruct (Z.ltb_spec (numSecondsDelayNoteOn cfg) 0),
    (Z.ltb_spec (numSeconds cfg) (numSecondsDelayNoteOn cfg));
    cbn; split; intros; try discriminate; try lia; reflexivity.
Qed.

Lemma bad_framesPerBurst_true (cfg : Config) :
  bad_framesPerBurst cfg = true <-> framesPerBurst cfg < 4.
Proof. unfold bad_framesPerBurst. apply Z.ltb_lt. Qed.

(** [valid] is the conjunction of the seven negated conditions. *)
Lemma valid_true (cfg : Config) :
  valid K cfg = true
  <-> bad_percentCpu cfg = false /\ bad_numVoices K cfg = false
      /\ bad_numVoicesHigh cfg = false /\ high_without_latency cfg = false
      /\ bad_numSeconds cfg = false /\ bad_noteOnDelay cfg = false
      /\ bad_framesPerBurst cfg = false.
Proof.
  unfold valid.
  destruct (bad_percentCpu cfg), (bad_numVoices K cfg),
    (bad_numVoicesHigh cfg), (high_without_latency cfg),
    (bad_numSeconds cfg), (bad_noteOnDelay cfg), (bad_framesPerBurst cfg);
    cbn; intuition discriminate.
Qed.

(** *** [main], case by case *)

Lemma idle_prints (t : list Event) : forallb is_print t = true -> idle t.
Proof. apply prints_call_nothing. Qed.

Lemma idle_no_run (t : list Event) (h : TestHarnessBase) (r b s : Z) :
  idle t -> ~ In (CallRunTest h r b s) t.
Proof.
  intros (_ & Hr & _) Hin. unfold test_runs in Hr.
  assert (Hx : In (r, b, s) (@nil (Z * Z * Z))); [|exact Hx].
  rewrite <- Hr. apply in_flat_map. eexists; split; [exact Hin|]. now left.
Qed.

(** The argument loop left [main]: help (status 0) or an unrecognized
    argument (status 1); nothing but text was produced. *)
Lemma main_stopped (argv : list string) :
  settings K argv = None ->
  (exit_status (main K argv) = 0 \/ exit_status (main K argv) = 1)
  /\ idle (trace (main K argv)).
Proof.
  unfold settings, main. intros Hs.
  destruct (parse_args_flow (hd "" argv) (tl argv) (initial_config K))
    as [[c E] | [t [s [E [Ht Hc]]]]]; rewrite E in *; [discriminate|].
  split; [exact Hc|]. apply idle_prints. exact Ht.
Qed.

(** A validation condition fired. *)
Lemma main_rejected (argv : list string) (cfg : Config) :
  settings K argv = Some cfg ->
  valid K cfg = false ->
  exit_status (main K argv) = 1 /\ idle (trace (main K argv)).
Proof.
  intros Hs Hv. apply settings_parse in Hs.
  destruct (validate_rejects (hd "" argv) cfg Hv) as [t [E Ht]].
  unfold main. rewrite Hs. cbn [bind printf emit]. rewrite E.
  split; [reflexivity|]. apply idle_prints. exact Ht.
Qed.

(** Validation passed but the test code is none of the four. *)
Lemma main_unselected (argv : list string) (cfg : Config) :
  settings K argv = Some cfg ->
  valid K cfg = true ->
  selected (testCode cfg) = None ->
  exit_status (main K argv) = 1 /\ idle (trace (main K argv)).
Proof.
  intros Hs Hv Hc. apply settings_parse in Hs.
  unfold main. rewrite Hs. cbn [bind printf emit].
  rewrite (validate_accepts _ _ Hv). unfold create_harness.
  unfold selected in Hc.
  destruct (testCode cfg =? "v")%char; [discriminate|].
  destruct (testCode cfg =? "l")%char; [discriminate|].
  destruct (testCode cfg =? "j")%char; [discriminate|].
  destruct (testCode cfg =? "u")%char; [discriminate|].
  split; reflexivity || (repeat split).
Qed.

(** Validation passed and the test code selects a harness: that harness
    alone is constructed, [runTest] is called once on it with the parsed
    rate, burst size and duration, and [main] returns the result code
    [runTest] left in the result object. *)
Lemma main_runs (argv : list string) (cfg : Config) (k : HarnessKind) :
  settings K argv = Some cfg ->
  valid K cfg = true ->
  selected (testCode cfg) = Some k ->
  exists h : TestHarnessBase,
    let t := trace (main K argv) in
    constructed t = [k]
    /\ test_runs t = [(sampleRate cfg, framesPerBurst cfg, numSeconds cfg)]
    /\ target_loads t
       = match k with VoiceMark => [target_load cfg] | _ => [] end
    /\ (forall h' r b s, In (CallRunTest h' r b s) t ->
          h' = h /\ r = sampleRate cfg /\ b = framesPerBurst cfg
          /\ s = numSeconds cfg)
    /\ In (CallRunTest h (sampleRate cfg) (framesPerBurst cfg) (numSeconds cfg)) t
    /\ exit_status (main K argv)
       = getResultCode (runTest h (sampleRate cfg) (framesPerBurst cfg)
                          (numSeconds cfg) new_result).
Proof.
  intros Hs Hv Hc. apply settings_parse in Hs.
  unfold main. rewrite Hs. cbn [bind printf emit].
  rewrite (validate_accepts _ _ Hv). unfold create_harness.
  unfold selected in Hc.
  destruct (testCode cfg =? "v")%char;
    [|destruct (testCode cfg =? "l")%char;
      [|destruct (testCode cfg =? "j")%char;
        [|destruct (testCode cfg =? "u")%char; [|discriminate]]]];
    injection Hc as <-; cbn;
    (eexists;
     split; [reflexivity|]; split; [reflexivity|]; split; [reflexivity|];
     split; [|split; [tauto | reflexivity]];
     intros h' r b s Hin;
     repeat (destruct Hin as [Hin|Hin]; [try discriminate|]);
     [injection Hin as <- <- <- <-; auto | destruct Hin]).
Qed.

Lemma idle_rejected (r : Run Z) :
  exit_status r = 1 /\ idle (trace r) -> rejected r.
Proof. intros (? & ? & ? & _). now repeat split. Qed.

(** Any one firing condition makes [main] return 1 with nothing built. *)
Lemma main_rejected_by (argv : list string) (cfg : Config) :
  settings K argv = Some cfg ->
  bad_percentCpu cfg = true \/ bad_numVoices K cfg = true
  \/ bad_numVoicesHigh cfg = true \/ high_without_latency cfg = true
  \/ bad_numSeconds cfg = true \/ bad_noteOnDelay cfg = true
  \/ bad_framesPerBurst cfg = true ->
  rejected (main K argv).
Proof.
  intros Hs Hb. apply idle_rejected, (main_rejected argv cfg Hs).
  destruct (valid K cfg) eqn:Hv; [|reflexivity].
  apply valid_true in Hv. intuition congruence.
Qed.

(** *** More on the argument loop *)

Lemma parse_arg_help (name arg : string) (cfg : Config) :
  is_help arg = true ->
  parse_arg K name arg cfg = (usage_text K name, Return 0).
Proof.
  unfold is_help, parse_arg.
  destruct (char_at arg 0 =? "-")%char; [cbn [andb]|discriminate].
  destruct (Ascii.eqb_spec (char_at arg 1) "h") as [->|_]; [reflexivity|].
  destruct (Ascii.eqb_spec (char_at arg 1) "?") as [->|_]; [reflexivity|].
  discriminate.
Qed.

(** Arguments that are all recognized either only set variables or end
    in the help exit. *)
Lemma parse_args_recognized (name : string) (pre : list string) (cfg : Config) :
  forallb recognized pre = true ->
  (exists cfg', forall rest,
      parse_args K name (pre ++ rest) cfg = parse_args K name rest cfg')
  \/ (forall rest,
         parse_args K name (pre ++ rest) cfg = (usage_text K name, Return 0)).
Proof.
  revert cfg. induction pre as [|arg pre IH]; intros cfg Hall.
  - left. now exists cfg.
  - cbn [forallb] in Hall. apply andb_true_iff in Hall. destruct Hall as [Ha Hp].
    destruct (parse_arg_cases name arg cfg)
      as [[_ [cfg' E]] | [[_ E] | [Hn _]]]; [| |congruence].
    + destruct (IH cfg' Hp) as [[c Hc] | Hh].
      * left. exists c. intros rest. cbn [app parse_args]. rewrite E.
        cbn [bind]. rewrite (Hc rest). now destruct (parse_args K name rest c).
      * right. intros rest. cbn [app parse_args]. rewrite E.
        cbn [bind]. now rewrite (Hh rest).
    + right. intros rest. cbn [app parse_args]. now rewrite E.
Qed.

Lemma parse_args_app (name : string) (args rest : list string) (cfg cfg' : Config) :
  parse_args K name args cfg = ([], Next cfg') ->
  parse_args K name (args ++ rest) cfg = parse_args K name rest cfg'.
Proof.
  revert cfg. induction args as [|arg args IH]; intros cfg.
  - now intros [= ->].
  - cbn [app parse_args].
    destruct (parse_arg_cases name arg cfg)
      as [[_ [c E]] | [[_ E] | [_ [t [E _]]]]]; rewrite E; cbn [bind];
      [|discriminate..].
    destruct (parse_args_flow name args c) as [[c' E'] | [t [s [E' _]]]].
    + rewrite E'. intros [= ->]. rewrite (IH c E').
      now destruct (parse_args K name rest cfg').
    + rewrite E'. discriminate.
Qed.

Lemma parse_arg_seconds (name s : string) (cfg : Config) :
  parse_arg K name ("-s" ++ s) cfg = ([], Next (set_numSeconds (atoi s) cfg)).
Proof. reflexivity. Qed.

(** *** The switch on the test code *)

Lemma create_harness_selected (name : string) (cfg : Config)
    (audioSink : VirtualAudioSink) (k : HarnessKind) :
  selected (testCode cfg) = Some k ->
  constructed (trace (create_harness K name cfg audioSink)) = [k]
  /\ exists h, snd (create_harness K name cfg audioSink) = Next h.
Proof.
  unfold selected, create_harness.
  destruct (testCode cfg =? "v")%char;
    [|destruct (testCode cfg =? "l")%char;
      [|destruct (testCode cfg =? "j")%char;
        [|destruct (testCode cfg =? "u")%char; [|discriminate]]]];
    intros [= <-]; (split; [reflexivity | eexists; reflexivity]).
Qed.

Lemma create_harness_unselected (name : string) (cfg : Config)
    (audioSink : VirtualAudioSink) :
  selected (testCode cfg) = None ->
  snd (create_harness K name cfg audioSink) = Return 1
  /\ constructed (trace (create_harness K name cfg audioSink)) = [].
Proof.
  unfold selected, create_harness.
  destruct (testCode cfg =? "v")%char; [discriminate|].
  destruct (testCode cfg =? "l")%char; [discriminate|].
  destruct (testCode cfg =? "j")%char; [discriminate|].
  destruct (testCode cfg =? "u")%char; [discriminate|].
  intros _. split; reflexivity.
Qed.

Lemma selected_code (c : ascii) :
  (c = "v"%char -> selected c = Some VoiceMark)
  /\ (c = "l"%char -> selected c = Some LatencyMark)
  /\ (c = "j"%char -> selected c = Some JitterMark)
  /\ (c = "u"%char -> selected c = Some UtilizationMark)
  /\ (c <> "v"%char -> c <> "l"%char -> c <> "j"%char -> c <> "u"%char ->
      selected c = None).
Proof.
  repeat split; try (intros ->; reflexivity).
  intros Hv Hl Hj Hu. unfold selected.
  destruct (Ascii.eqb_spec c "v"); [contradiction|].
  destruct (Ascii.eqb_spec c "l"); [contradiction|].
  destruct (Ascii.eqb_spec c "j"); [contradiction|].
  destruct (Ascii.eqb_spec c "u"); [contradiction|].
  reflexivity.
Qed.

Lemma bad_numVoicesHigh_false (cfg : Config) :
  bad_numVoicesHigh cfg = false
  <-> numVoicesHigh cfg = 0 \/ numVoices cfg <= numVoicesHigh cfg.
Proof.
  pose proof (bad_numVoicesHigh_true cfg) as H.
  destruct (bad_numVoicesHigh cfg).
  - split; [discriminate|]. destruct H as [H _]. specialize (H eq_refl). lia.
  - split; [intros _|reflexivity].
    destruct (Z.eq_dec (numVoicesHigh cfg) 0) as [E|E]; [now left|right].
    destruct (Z_lt_le_dec (numVoicesHigh cfg) (numVoices cfg)) as [Hlt|Hle];
      [|exact Hle].
    destruct H as [_ H]. now discriminate H.
Qed.

Lemma high_without_latency_false (cfg : Config) :
  high_without_latency cfg = false
  <-> numVoicesHigh cfg = 0 \/ testCode cfg = "l"%char.
Proof.
  unfold high_without_latency.
  destruct (Z.eqb_spec (numVoicesHigh cfg) 0),
    (Ascii.eqb_spec (testCode cfg) "l");
    cbn; split; intros; try discriminate; try tauto; reflexivity.
Qed.

Lemma bad_numSeconds_false (cfg : Config) :
  bad_numSeconds cfg = false <-> 1 <= numSeconds cfg.
Proof. unfold bad_numSeconds. apply Z.ltb_ge. Qed.

Lemma bad_framesPerBurst_false (cfg : Config) :
  bad_framesPerBurst cfg = false <-> 4 <= framesPerBurst cfg.
Proof. unfold bad_framesPerBurst. apply Z.ltb_ge. Qed.

Lemma valid_arith (cfg : Config) :
  valid K cfg = true
  <-> 1 <= percentCpu cfg <= 100
      /\ 0 <= numVoices cfg <= SYNTHMARK_MAX_VOICES K
      /\ (1 <= numVoices cfg \/ 0 < numVoicesHigh cfg)
      /\ (numVoicesHigh cfg = 0
          \/ (numVoices cfg <= numVoicesHigh cfg /\ testCode cfg = "l"%char))
      /\ 1 <= numSeconds cfg
      /\ 0 <= numSecondsDelayNoteOn cfg <= numSeconds cfg
      /\ 4 <= framesPerBurst cfg.
Proof.
  rewrite valid_true, bad_percentCpu_false, bad_numVoices_false,
    bad_noteOnDelay_false, bad_numVoicesHigh_false, high_without_latency_false,
    bad_numSeconds_false, bad_framesPerBurst_false.
  tauto.
Qed.

Lemma selected_some_iff (c : ascii) :
  (exists k, selected c = Some k) <-> In c ["v"; "l"; "j"; "u"]%char.
Proof.
  unfold selected. cbn [In].
  destruct (Ascii.eqb_spec c "v"), (Ascii.eqb_spec c "l"),
    (Ascii.eqb_spec c "j"), (Ascii.eqb_spec c "u");
    split; try (intros _; eexists; reflexivity); try (intros [k [=]]);
    intuition congruence.
Qed.

(** With one of the four test codes, a test is run exactly when no
    validation condition fires. *)
Lemma runs_iff_valid (argv : list string) (cfg : Config) :
  settings K argv = Some cfg ->
  In (testCode cfg) ["v"; "l"; "j"; "u"]%char ->
  test_runs (trace (main K argv)) <> [] <-> valid K cfg = true.
Proof.
  intros Hs Hin. apply selected_some_iff in Hin. destruct Hin as [k Hk].
  destruct (valid K cfg) eqn:Hv.
  - destruct (main_runs argv cfg k Hs Hv Hk) as (h & _ & Hr & _).
    rewrite Hr. split; [reflexivity | discriminate].
  - destruct (main_rejected argv cfg Hs Hv) as (_ & _ & Hr & _).
    rewrite Hr. split; [now intros [] | discriminate].
Qed.

(** What a run hands to the setters. *)
Lemma main_runs_setters (argv : list string) (cfg : Config) (k : HarnessKind) :
  settings K argv = Some cfg ->
  valid K cfg = true ->
  selected (testCode cfg) = Some k ->
  In (CallSetNumVoices (numVoices cfg)) (trace (main K argv))
  /\ In (CallSetDelayNotesOn (numSecondsDelayNoteOn cfg)) (trace (main K argv)).
Proof.
  intros Hs Hv Hc. apply settings_parse in Hs.
  unfold main. rewrite Hs. cbn [bind printf emit].
  rewrite (validate_accepts _ _ Hv). unfold create_harness.
  unfold selected in Hc.
  destruct (testCode cfg =? "v")%char;
    [|destruct (testCode cfg =? "l")%char;
      [|destruct (testCode cfg =? "j")%char;
        [|destruct (testCode cfg =? "u")%char; [|discriminate]]]];
    cbn; tauto.
Qed.

End DriverFacts.

(** * The claims *)

Section Claims.

Variable K : Constants.
Context {L : HarnessLib}.

(** C1 (as amended).  On every command line that is parsed to its end
    with a high voice count that is not zero and is less than the voice
    count, [main] returns 1 and neither constructs a harness nor calls
    [runTest].  A high voice count of 0 means that none was given and is
    not compared. *)
Theorem high_count_below_voices_rejected (argv : list string) (cfg : Config) :
  settings K argv = Some cfg ->
  numVoicesHigh cfg <> 0 ->
  numVoicesHigh cfg < numVoices cfg ->
  rejected (main K argv).
Proof.
  intros Hs Hnz Hlt. apply (main_rejected_by K argv cfg Hs).
  right; right; left. now apply bad_numVoicesHigh_true.
Qed.

(** C2 (as amended).  On every command line that is parsed to its end
    with a burst size below 4 frames, [main] returns 1 and neither
    constructs a harness nor calls [runTest].  The driver has no
    condition on the sample rate: whether a configuration is valid does
    not depend on it, and a valid configuration hands the parsed rate to
    [runTest] whatever its sign. *)
Theorem small_burst_rejected_rate_unchecked :
  (forall (argv : list string) (cfg : Config),
      settings K argv = Some cfg ->
      framesPerBurst cfg < 4 ->
      rejected (main K argv))
  /\ (forall (cfg : Config) (rate : Z),
         valid K (set_sampleRate rate cfg) = valid K cfg)
  /\ (forall (argv : list string) (cfg : Config) (k : HarnessKind),
         settings K argv = Some cfg ->
         valid K cfg = true ->
         selected (testCode cfg) = Some k ->
         test_runs (trace (main K argv))
         = [(sampleRate cfg, framesPerBurst cfg, numSeconds cfg)]).
Proof.
  split; [|split].
  - intros argv cfg Hs Hlt. apply (main_rejected_by K argv cfg Hs).
    do 6 right. now apply bad_framesPerBurst_true.
  - reflexivity.
  - intros argv cfg k Hs Hv Hk.
    destruct (main_runs K argv cfg k Hs Hv Hk) as (h & _ & Hr & _).
    exact Hr.
Qed.

(** C3 (as amended).  The voice-count condition lets a configuration
    through exactly when the voice count lies in [0, MAX_VOICES] and is
    at least 1 or comes with a positive high voice count.  Whenever the
    condition fires, in particular for every voice count outside
    [0, MAX_VOICES], [main] returns 1 before any harness is built or
    run.  When the other settings are in order, [main] runs the test
    exactly for these voice counts, and the harness then receives the
    count through [setNumVoices]. *)
Theorem voice_count_check :
  (forall cfg : Config,
      bad_numVoices K cfg = false
      <-> 0 <= numVoices cfg <= SYNTHMARK_MAX_VOICES K
          /\ (1 <= numVoices cfg \/ 0 < numVoicesHigh cfg))
  /\ (forall (argv : list string) (cfg : Config),
         settings K argv = Some cfg ->
         numVoices cfg < 0 \/ SYNTHMARK_MAX_VOICES K < numVoices cfg
         \/ (numVoices cfg = 0 /\ numVoicesHigh cfg <= 0) ->
         rejected (main K argv))
  /\ (forall (argv : list string) (cfg : Config),
         settings K argv = Some cfg ->
         1 <= percentCpu cfg <= 100 ->
         numVoicesHigh cfg = 0
         \/ (numVoices cfg <= numVoicesHigh cfg /\ testCode cfg = "l"%char) ->
         1 <= numSeconds cfg ->
         0 <= numSecondsDelayNoteOn cfg <= numSeconds cfg ->
         4 <= framesPerBurst cfg ->
         In (testCode cfg) ["v"; "l"; "j"; "u"]%char ->
         (test_runs (trace (main K argv)) <> []
          <-> 0 <= numVoices cfg <= SYNTHMARK_MAX_VOICES K
              /\ (1 <= numVoices cfg \/ 0 < numVoicesHigh cfg))
         /\ (0 <= numVoices cfg <= SYNTHMARK_MAX_VOICES K
             /\ (1 <= numVoices cfg \/ 0 < numVoicesHigh cfg) ->
             test_runs (trace (main K argv))
             = [(sampleRate cfg, framesPerBurst cfg, numSeconds cfg)]
             /\ In (CallSetNumVoices (numVoices cfg)) (trace (main K argv)))).
Proof.
  split; [exact (bad_numVoices_false K)|]. split.
  - intros argv cfg Hs Hout. apply (main_rejected_by K argv cfg Hs).
    right; left. destruct (bad_numVoices K cfg) eqn:E; [reflexivity|].
    apply bad_numVoices_false in E. lia.
  - intros argv cfg Hs Hp Hh Hsec Hd Hb Hin.
    split.
    + rewrite (runs_iff_valid K argv cfg Hs Hin), valid_arith. tauto.
    + intros Hv.
      assert (Hval : valid K cfg = true) by (apply valid_arith; tauto).
      pose proof Hin as Hk. apply selected_some_iff in Hk. destruct Hk as [k Hk].
      destruct (main_runs K argv cfg k Hs Hval Hk) as (h & _ & Hr & _).
      destruct (main_runs_setters K argv cfg k Hs Hval Hk) as (Hn & _).
      now split.
Qed.

(** C4.  A high voice count other than 0 passes only with the latency
    test: with any other test code [main] returns 1 and nothing is built
    or run; so whenever a harness is built or run with such a count, the
    test code is 'l'. *)
Theorem high_count_only_with_latency (argv : list string) (cfg : Config) :
  settings K argv = Some cfg ->
  numVoicesHigh cfg <> 0 ->
  (testCode cfg <> "l"%char -> rejected (main K argv))
  /\ (constructed (trace (main K argv)) <> []
      \/ test_runs (trace (main K argv)) <> [] ->
      testCode cfg = "l"%char).
Proof.
  intros Hs Hnz.
  assert (Hrej : testCode cfg <> "l"%char -> rejected (main K argv)).
  { intros Hc. apply (main_rejected_by K argv cfg Hs).
    do 3 right; left. now apply high_without_latency_true. }
  split; [exact Hrej|].
  intros Hrun. destruct (Ascii.eqb_spec (testCode cfg) "l") as [E|E]; [exact E|].
  destruct (Hrej E) as (_ & Hc & Hr). destruct Hrun; contradiction.
Qed.

(** C5.  The switch on the test code builds a [VoiceMarkHarness] for
    'v', a [LatencyMarkHarness] for 'l', a [JitterMarkHarness] for 'j', a
    [UtilizationMarkHarness] for 'u', each time that harness alone, and
    for any other code it builds nothing and returns 1.  In [main], once
    validation has passed, exactly the selected harness is built and run
    once; with any other code [main] returns 1 with nothing built or
    run. *)
Theorem test_code_selects_harness :
  (forall (name : string) (cfg : Config) (audioSink : VirtualAudioSink),
      let built := constructed (trace (create_harness K name cfg audioSink)) in
      (testCode cfg = "v"%char -> built = [VoiceMark])
      /\ (testCode cfg = "l"%char -> built = [LatencyMark])
      /\ (testCode cfg = "j"%char -> built = [JitterMark])
      /\ (testCode cfg = "u"%char -> built = [UtilizationMark])
      /\ (testCode cfg <> "v"%char -> testCode cfg <> "l"%char ->
          testCode cfg <> "j"%char -> testCode cfg <> "u"%char ->
          built = [] /\ snd (create_harness K name cfg audioSink) = Return 1))
  /\ (forall (argv : list string) (cfg : Config),
         settings K argv = Some cfg ->
         let built := constructed (trace (main K argv)) in
         let runs := test_runs (trace (main K argv)) in
         (valid K cfg = true ->
          (testCode cfg = "v"%char -> built = [VoiceMark] /\ List.length runs = 1%nat)
          /\ (testCode cfg = "l"%char -> built = [LatencyMark] /\ List.length runs = 1%nat)
          /\ (testCode cfg = "j"%char -> built = [JitterMark] /\ List.length runs = 1%nat)
          /\ (testCode cfg = "u"%char ->
              built = [UtilizationMark] /\ List.length runs = 1%nat))
         /\ (testCode cfg <> "v"%char -> testCode cfg <> "l"%char ->
             testCode cfg <> "j"%char -> testCode cfg <> "u"%char ->
             rejected (main K argv))).
Proof.
  split.
  - intros name cfg audioSink built.
    destruct (selected_code (testCode cfg)) as (Hv & Hl & Hj & Hu & Hn).
    subst built.
    split; [|split; [|split; [|split]]];
      try (intros E; now apply (create_harness_selected K name cfg audioSink);
           auto).
    intros Nv Nl Nj Nu.
    destruct (create_harness_unselected K name cfg audioSink (Hn Nv Nl Nj Nu)).
    now split.
  - intros argv cfg Hs built runs.
    destruct (selected_code (testCode cfg)) as (Hv & Hl & Hj & Hu & Hn).
    assert (Hrun : forall k, valid K cfg = true ->
              selected (testCode cfg) = Some k ->
              built = [k] /\ List.length runs = 1%nat).
    { intros k Hval Hk.
      destruct (main_runs K argv cfg k Hs Hval Hk) as (h & Hc & Hr & _).
      subst built runs. split; [exact Hc|]. now rewrite Hr. }
    split.
    + intros Hval.
      split; [|split; [|split]]; intros E; apply Hrun; auto.
    + intros Nv Nl Nj Nu. destruct (valid K cfg) eqn:Hval.
      * apply idle_rejected, (main_unselected K argv cfg Hs Hval). auto.
      * apply idle_rejected, (main_rejected K argv cfg Hs Hval).
Qed.

(** C6.  The percent condition lets a configuration through exactly when
    the percentage lies in [1, 100]; outside it [main] returns 1 before
    any harness is built.  When the other settings are in order, [main]
    runs the test exactly for these percentages, and with the voice test
    it builds the [VoiceMarkHarness] and passes it the one target load
    p * 0.01, computed in binary64, which satisfies 0 < load <= 1.
    No other load is ever passed to [setTargetCpuLoad]. *)
Theorem percent_cpu_check :
  (forall cfg : Config,
      bad_percentCpu cfg = false <-> 1 <= percentCpu cfg <= 100)
  /\ (forall (argv : list string) (cfg : Config),
         settings K argv = Some cfg ->
         percentCpu cfg < 1 \/ 100 < percentCpu cfg ->
         rejected (main K argv))
  /\ (forall (argv : list string) (cfg : Config),
         settings K argv = Some cfg ->
         0 <= numVoices cfg <= SYNTHMARK_MAX_VOICES K ->
         1 <= numVoices cfg \/ 0 < numVoicesHigh cfg ->
         numVoicesHigh cfg = 0
         \/ (numVoices cfg <= numVoicesHigh cfg /\ testCode cfg = "l"%char) ->
         1 <= numSeconds cfg ->
         0 <= numSecondsDelayNoteOn cfg <= numSeconds cfg ->
         4 <= framesPerBurst cfg ->
         In (testCode cfg) ["v"; "l"; "j"; "u"]%char ->
         (test_runs (trace (main K argv)) <> [] <-> 1 <= percentCpu cfg <= 100)
         /\ (1 <= percentCpu cfg <= 100 ->
             testCode cfg = "v"%char ->
             constructed (trace (main K argv)) = [VoiceMark]
             /\ target_loads (trace (main K argv))
                = [PrimFloat.mul (double_of_int (percentCpu cfg)) lit_0_01]
             /\ PrimFloat.ltb 0
                  (PrimFloat.mul (double_of_int (percentCpu cfg)) lit_0_01)
                = true
             /\ PrimFloat.leb
                  (PrimFloat.mul (double_of_int (percentCpu cfg)) lit_0_01) 1
                = true))
  /\ (forall (argv : list string) (load : float),
         In load (target_loads (trace (main K argv))) ->
         exists cfg : Config,
           settings K argv = Some cfg
           /\ 1 <= percentCpu cfg <= 100
           /\ load = PrimFloat.mul (double_of_int (percentCpu cfg)) lit_0_01
           /\ PrimFloat.ltb 0 load = true
           /\ PrimFloat.leb load 1 = true).
Proof.
  split; [exact bad_percentCpu_false|]. split; [|split].
  - intros argv cfg Hs Hout. apply (main_rejected_by K argv cfg Hs).
    left. destruct (bad_percentCpu cfg) eqn:E; [reflexivity|].
    apply bad_percentCpu_false in E. lia.
  - intros argv cfg Hs Hn Hn1 Hh Hsec Hd Hb Hin.
    split.
    + rewrite (runs_iff_valid K argv cfg Hs Hin), valid_arith. tauto.
    + intros Hp Hv.
      assert (Hval : valid K cfg = true) by (apply valid_arith; tauto).
      assert (Hk : selected (testCode cfg) = Some VoiceMark)
        by (now rewrite Hv).
      destruct (main_runs K argv cfg VoiceMark Hs Hval Hk)
        as (h & Hc & _ & Hl & _).
      destruct (double_of_percent (percentCpu cfg) Hp) as [H0 H1].
      unfold target_load in Hl. auto.
  - intros argv load Hin.
    destruct (settings K argv) as [cfg|] eqn:Hs.
    2:{ destruct (main_stopped K argv Hs) as (_ & _ & _ & Hl).
        rewrite Hl in Hin. destruct Hin. }
    destruct (valid K cfg) eqn:Hval.
    2:{ destruct (main_rejected K argv cfg Hs Hval) as (_ & _ & _ & Hl).
        rewrite Hl in Hin. destruct Hin. }
    destruct (selected (testCode cfg)) as [k|] eqn:Hk.
    2:{ destruct (main_unselected K argv cfg Hs Hval Hk) as (_ & _ & _ & Hl).
        rewrite Hl in Hin. destruct Hin. }
    destruct (main_runs K argv cfg k Hs Hval Hk) as (h & _ & _ & Hl & _).
    rewrite Hl in Hin. apply valid_true in Hval. destruct Hval as (Hp & _).
    apply bad_percentCpu_false in Hp.
    destruct k; cbn [In] in Hin; try contradiction.
    destruct Hin as [<-|[]]. exists cfg.
    destruct (double_of_percent (percentCpu cfg) Hp) as [H0 H1].
    unfold target_load. auto.
Qed.

(** C7.  The delay condition lets a configuration through exactly when
    0 <= delay <= duration; a negative delay, or one longer than the
    duration, makes [main] return 1 before anything is built or run.
    When the other settings are in order, [main] runs the test exactly
    for these delays, and the harness then receives the delay through
    [setDelayNotesOn]. *)
Theorem note_on_delay_check :
  (forall cfg : Config,
      bad_noteOnDelay cfg = false
      <-> 0 <= numSecondsDelayNoteOn cfg <= numSeconds cfg)
  /\ (forall (argv : list string) (cfg : Config),
         settings K argv = Some cfg ->
         numSecondsDelayNoteOn cfg < 0
         \/ numSeconds cfg < numSecondsDelayNoteOn cfg ->
         rejected (main K argv))
  /\ (forall (argv : list string) (cfg : Config),
         settings K argv = Some cfg ->
         1 <= percentCpu cfg <= 100 ->
         0 <= numVoices cfg <= SYNTHMARK_MAX_VOICES K ->
         1 <= numVoices cfg \/ 0 < numVoicesHigh cfg ->
         numVoicesHigh cfg = 0
         \/ (numVoices cfg <= numVoicesHigh cfg /\ testCode cfg = "l"%char) ->
         1 <= numSeconds cfg ->
         4 <= framesPerBurst cfg ->
         In (testCode cfg) ["v"; "l"; "j"; "u"]%char ->
         (test_runs (trace (main K argv)) <> []
          <-> 0 <= numSecondsDelayNoteOn cfg <= numSeconds cfg)
         /\ (0 <= numSecondsDelayNoteOn cfg <= numSeconds cfg ->
             test_runs (trace (main K argv))
             = [(sampleRate cfg, framesPerBurst cfg, numSeconds cfg)]
             /\ In (CallSetDelayNotesOn (numSecondsDelayNoteOn cfg))
                  (trace (main K argv)))).
Proof.
  split; [exact bad_noteOnDelay_false|]. split.
  - intros argv cfg Hs Hout. apply (main_rejected_by K argv cfg Hs).
    do 5 right; left. destruct (bad_noteOnDelay cfg) eqn:E; [reflexivity|].
    apply bad_noteOnDelay_false in E. lia.
  - intros argv cfg Hs Hp Hn Hn1 Hh Hsec Hb Hin.
    split.
    + rewrite (runs_iff_valid K argv cfg Hs Hin), valid_arith. tauto.
    + intros Hd.
      assert (Hval : valid K cfg = true) by (apply valid_arith; tauto).
      pose proof Hin as Hk. apply selected_some_iff in Hk. destruct Hk as [k Hk].
      destruct (main_runs K argv cfg k Hs Hval Hk) as (h & _ & Hr & _).
      destruct (main_runs_setters K argv cfg k Hs Hval Hk) as (_ & Hdel).
      now split.
Qed.

(** C8.  Whenever [main] has called [runTest], the value it returns is
    the result code of the result object as [runTest] left it; so it
    returns 0 exactly when that code is 0 (pass) and the failure code
    otherwise.  The call does happen for every valid configuration with
    one of the four test codes. *)
Theorem exit_status_is_result_code :
  (forall (argv : list string) (h : TestHarnessBase) (r b s : Z),
      In (CallRunTest h r b s) (trace (main K argv)) ->
      exit_status (main K argv) = getResultCode (runTest h r b s new_result)
      /\ (exit_status (main K argv) = 0
          <-> getResultCode (runTest h r b s new_result) = 0))
  /\ (forall (argv : list string) (cfg : Config) (k : HarnessKind),
         settings K argv = Some cfg ->
         valid K cfg = true ->
         selected (testCode cfg) = Some k ->
         exists h : TestHarnessBase,
           In (CallRunTest h (sampleRate cfg) (framesPerBurst cfg)
                 (numSeconds cfg))
              (trace (main K argv))).
Proof.
  split.
  - intros argv h r b s Hin.
    assert (E : exit_status (main K argv)
                = getResultCode (runTest h r b s new_result));
      [|rewrite E; tauto].
    destruct (settings K argv) as [cfg|] eqn:Hs.
    2:{ destruct (main_stopped K argv Hs) as (_ & Hi).
        now destruct (idle_no_run _ h r b s Hi). }
    destruct (valid K cfg) eqn:Hval.
    2:{ destruct (main_rejected K argv cfg Hs Hval) as (_ & Hi).
        now destruct (idle_no_run _ h r b s Hi). }
    destruct (selected (testCode cfg)) as [k|] eqn:Hk.
    2:{ destruct (main_unselected K argv cfg Hs Hval Hk) as (_ & Hi).
        now destruct (idle_no_run _ h r b s Hi). }
    destruct (main_runs K argv cfg k Hs Hval Hk)
      as (h0 & _ & _ & _ & Huniq & _ & Hcode).
    destruct (Huniq h r b s Hin) as (-> & -> & -> & ->). exact Hcode.
  - intros argv cfg k Hs Hval Hk.
    destruct (main_runs K argv cfg k Hs Hval Hk) as (h & _ & _ & _ & _ & Hin & _).
    now exists h.
Qed.

(** C9.  A duration below 1 second makes [main] return 1 before any
    harness is built.  That covers a [-s] argument with no number in it:
    [atoi] gives 0 for it, and a command line ending in such an argument
    is rejected. *)
Theorem short_duration_rejected :
  (forall (argv : list string) (cfg : Config),
      settings K argv = Some cfg ->
      numSeconds cfg < 1 ->
      rejected (main K argv))
  /\ (forall (name : string) (args : list string) (cfg : Config) (s : string),
         settings K (name :: args) = Some cfg ->
         convertible s = false ->
         settings K (name :: args ++ ["-s" ++ s]) = Some (set_numSeconds 0 cfg)
         /\ rejected (main K (name :: args ++ ["-s" ++ s]))).
Proof.
  assert (Hshort : forall argv cfg, settings K argv = Some cfg ->
            numSeconds cfg < 1 -> rejected (main K argv)).
  { intros argv cfg Hs Hlt. apply (main_rejected_by K argv cfg Hs).
    do 4 right; left. now apply bad_numSeconds_true. }
  split; [exact Hshort|].
  intros name args cfg s Hs Hconv.
  assert (Hs' : settings K (name :: args ++ ["-s" ++ s])
                = Some (set_numSeconds 0 cfg)).
  { apply settings_parse in Hs. cbn [hd tl] in Hs.
    unfold settings. cbn [hd tl].
    rewrite (parse_args_app K name args ["-s" ++ s] _ cfg Hs).
    cbn [parse_args]. rewrite parse_arg_seconds, (atoi_unparsable s Hconv).
    reflexivity. }
  split; [exact Hs'|]. apply (Hshort _ _ Hs'). cbn. lia.
Qed.

(** C10.  When every argument before the first [-h] or [-?] is
    recognized, [main] prints the banner and the usage text and returns
    0: nothing else happens, whatever arguments follow and whatever
    values the earlier ones set. *)
Theorem help_returns_zero (name : string) (pre : list string)
    (help : string) (post : list string) :
  forallb recognized pre = true ->
  is_help help = true ->
  main K (name :: pre ++ help :: post)
  = ((banner K ++ usage_text K name)%list, Return 0).
Proof.
  intros Hpre Hhelp. unfold main. cbn [hd tl bind printf emit].
  destruct (parse_args_recognized K name pre (initial_config K) Hpre)
    as [[cfg Hc] | Hh].
  - rewrite Hc. cbn [parse_args]. rewrite (parse_arg_help K name help cfg Hhelp).
    reflexivity.
  - rewrite Hh. reflexivity.
Qed.

End Claims.

(** C1, as first stated, fails: a latency run with the high voice count
    left at 0 and 8 voices has a high count below the voice count, yet the
    latency harness is constructed and run. *)
Lemma latency_run_with_high_count_unset :
  option_map numVoicesHigh
    (Sample.parsed ["synthmark"; "-tl"; "-n8"; "-p50"; "-b64"; "-r48000"])
  = Some 0
  /\ option_map numVoices
       (Sample.parsed ["synthmark"; "-tl"; "-n8"; "-p50"; "-b64"; "-r48000"])
     = Some 8
  /\ constructed
       (trace (Sample.run ["synthmark"; "-tl"; "-n8"; "-p50"; "-b64"; "-r48000"]))
     = [LatencyMark]
  /\ test_runs
       (trace (Sample.run ["synthmark"; "-tl"; "-n8"; "-p50"; "-b64"; "-r48000"]))
     = [(48000, 64, 10)]
  /\ exit_status (Sample.run ["synthmark"; "-tl"; "-n8"; "-p50"; "-b64"; "-r48000"])
     = 0.
Proof. vm_compute. repeat split. Qed.

(** A latency run asked for 8 voices and a high count of 4 is rejected. *)
Lemma high_count_below_voices_rejected_run :
  rejected (Sample.run ["synthmark"; "-tl"; "-n8"; "-N4"]).
Proof.
  eapply (@high_count_below_voices_rejected Sample.header Sample.lib).
  - vm_compute. reflexivity.
  - cbn. lia.
  - cbn. lia.
Defined.

(** C2, as first stated, fails: with a sample rate of 0 (or a negative
    one) and everything else in order, the harness is constructed and
    [runTest] is called with that rate. *)
Lemma zero_sample_rate_reaches_runTest :
  option_map sampleRate
    (Sample.parsed ["synthmark"; "-tj"; "-r0"; "-n8"; "-p50"; "-b64"])
  = Some 0
  /\ constructed
       (trace (Sample.run ["synthmark"; "-tj"; "-r0"; "-n8"; "-p50"; "-b64"]))
     = [JitterMark]
  /\ test_runs
       (trace (Sample.run ["synthmark"; "-tj"; "-r0"; "-n8"; "-p50"; "-b64"]))
     = [(0, 64, 10)]
  /\ test_runs
       (trace (Sample.run ["synthmark"; "-tj"; "-r-44100"; "-n8"; "-p50"; "-b64"]))
     = [(-44100, 64, 10)].
Proof. vm_compute. repeat split. Qed.

(** A burst of 3 frames is rejected. *)
Lemma small_burst_rejected_run :
  rejected (Sample.run ["synthmark"; "-b3"]).
Proof.
  eapply (proj1 (@small_burst_rejected_rate_unchecked Sample.header Sample.lib)).
  - vm_compute. reflexivity.
  - cbn. lia.
Defined.

(** C3, as first stated, fails: a voice count of 0 lies in
    [0, MAX_VOICES] and is turned down when no high voice count is given. *)
Lemma zero_voices_turned_down :
  option_map numVoices (Sample.parsed ["synthmark"; "-n0"; "-p50"; "-b64"])
  = Some 0
  /\ 0 <= 0 <= SYNTHMARK_MAX_VOICES Sample.header
  /\ exit_status (Sample.run ["synthmark"; "-n0"; "-p50"; "-b64"]) = 1
  /\ hd_error (tl (trace (Sample.run ["synthmark"; "-n0"; "-p50"; "-b64"])))
     = Some (Printf "Invalid num voices = %d\n" [AInt 0])
  /\ constructed (trace (Sample.run ["synthmark"; "-n0"; "-p50"; "-b64"])) = [].
Proof. vm_compute. repeat split; discriminate. Qed.

(** 513 voices (one above the sample maximum) and -1 voices are rejected;
    512 voices, and 0 voices with a high count of 4 in a latency test, are
    run and reach [setNumVoices]. *)
Lemma voice_count_check_run :
  rejected (Sample.run ["synthmark"; "-n513"])
  /\ rejected (Sample.run ["synthmark"; "-n-1"; "-N4"; "-tl"])
  /\ (test_runs (trace (Sample.run ["synthmark"; "-n512"])) = [(48000, 64, 10)]
      /\ In (CallSetNumVoices 512) (trace (Sample.run ["synthmark"; "-n512"])))
  /\ (test_runs (trace (Sample.run ["synthmark"; "-n0"; "-N4"; "-tl"]))
      = [(48000, 64, 10)]
      /\ In (CallSetNumVoices 0)
           (trace (Sample.run ["synthmark"; "-n0"; "-N4"; "-tl"]))).
Proof.
  split; [|split; [|split]].
  - eapply (proj1 (proj2 (@voice_count_check Sample.header Sample.lib))).
    + vm_compute. reflexivity.
    + cbn. lia.
  - eapply (proj1 (proj2 (@voice_count_check Sample.header Sample.lib))).
    + vm_compute. reflexivity.
    + cbn. lia.
  - refine (proj2 (proj2 (proj2 (@voice_count_check Sample.header Sample.lib))
                     ["synthmark"; "-n512"]
                     (set_numVoices 512 (initial_config Sample.header))
                     _ _ _ _ _ _ _) _);
      first [reflexivity | vm_compute; intuition (reflexivity || discriminate)].
  - refine (proj2 (proj2 (proj2 (@voice_count_check Sample.header Sample.lib))
                     ["synthmark"; "-n0"; "-N4"; "-tl"]
                     (set_testCode "l"
                        (set_numVoicesHigh 4
                           (set_numVoices 0 (initial_config Sample.header))))
                     _ _ _ _ _ _ _) _);
      first [reflexivity | vm_compute; intuition (reflexivity || discriminate)].
Defined.

(** A high count of 16 with the voice test is rejected. *)
Lemma high_count_only_with_latency_run :
  rejected (Sample.run ["synthmark"; "-N16"; "-tv"]).
Proof.
  eapply (fun Hs Hnz => proj1 (@high_count_only_with_latency
                                 Sample.header Sample.lib _ _ Hs Hnz)).
  - vm_compute. reflexivity.
  - cbn. lia.
  - cbn. discriminate.
Defined.

(** Code 'j' builds and runs the jitter harness; code 'x' is rejected. *)
Lemma test_code_selects_harness_run :
  (constructed (trace (Sample.run ["synthmark"; "-tj"])) = [JitterMark]
   /\ List.length (test_runs (trace (Sample.run ["synthmark"; "-tj"]))) = 1%nat)
  /\ rejected (Sample.run ["synthmark"; "-tx"]).
Proof.
  split.
  - eapply (fun Hs Hv =>
              proj1 (proj2 (proj2
                (proj1 (proj2 (@test_code_selects_harness Sample.header Sample.lib)
                          ["synthmark"; "-tj"] _ Hs) Hv)))).
    + vm_compute. reflexivity.
    + vm_compute. reflexivity.
    + reflexivity.
  - eapply (fun Hs =>
              proj2 (proj2 (@test_code_selects_harness Sample.header Sample.lib)
                       ["synthmark"; "-tx"] _ Hs)).
    + vm_compute. reflexivity.
    + cbn. discriminate.
    + cbn. discriminate.
    + cbn. discriminate.
    + cbn. discriminate.
Defined.

(** 101 percent is rejected; 100 percent runs the voice test with the
    load 1.0, and 1 percent with the load 0.01. *)
Lemma percent_cpu_check_run :
  rejected (Sample.run ["synthmark"; "-p101"])
  /\ (constructed (trace (Sample.run ["synthmark"; "-p100"])) = [VoiceMark]
      /\ target_loads (trace (Sample.run ["synthmark"; "-p100"])) = [1%float])
  /\ (constructed (trace (Sample.run ["synthmark"; "-p1"])) = [VoiceMark]
      /\ target_loads (trace (Sample.run ["synthmark"; "-p1"])) = [lit_0_01]).
Proof.
  split; [|split].
  - eapply (proj1 (proj2 (@percent_cpu_check Sample.header Sample.lib))).
    + vm_compute. reflexivity.
    + cbn. lia.
  - destruct (proj2 (proj1 (proj2 (proj2
                (@percent_cpu_check Sample.header Sample.lib)))
                ["synthmark"; "-p100"]
                (set_percentCpu 100 (initial_config Sample.header))
                eq_refl
                ltac:(vm_compute; intuition discriminate) ltac:(vm_compute; intuition discriminate) ltac:(vm_compute; intuition discriminate)
                ltac:(vm_compute; intuition discriminate) ltac:(vm_compute; intuition discriminate) ltac:(vm_compute; intuition discriminate)
                ltac:(vm_compute; intuition reflexivity))
              ltac:(vm_compute; intuition discriminate) eq_refl)
      as (Hc & Hl & _).
    split; [exact Hc | exact Hl].
  - destruct (proj2 (proj1 (proj2 (proj2
                (@percent_cpu_check Sample.header Sample.lib)))
                ["synthmark"; "-p1"]
                (set_percentCpu 1 (initial_config Sample.header))
                eq_refl
                ltac:(vm_compute; intuition discriminate) ltac:(vm_compute; intuition discriminate) ltac:(vm_compute; intuition discriminate)
                ltac:(vm_compute; intuition discriminate) ltac:(vm_compute; intuition discriminate) ltac:(vm_compute; intuition discriminate)
                ltac:(vm_compute; intuition reflexivity))
              ltac:(vm_compute; intuition discriminate) eq_refl)
      as (Hc & Hl & _).
    split; [exact Hc | exact Hl].
Defined.

(** A delay of 6 s in a 5 s test and a delay of -1 s are rejected; a
    delay of 5 s in a 5 s test is run and reaches [setDelayNotesOn]. *)
Lemma note_on_delay_check_run :
  rejected (Sample.run ["synthmark"; "-s5"; "-d6"])
  /\ rejected (Sample.run ["synthmark"; "-d-1"])
  /\ (test_runs (trace (Sample.run ["synthmark"; "-s5"; "-d5"]))
      = [(48000, 64, 5)]
      /\ In (CallSetDelayNotesOn 5)
           (trace (Sample.run ["synthmark"; "-s5"; "-d5"]))).
Proof.
  split; [|split].
  - eapply (proj1 (proj2 (@note_on_delay_check Sample.header Sample.lib))).
    + vm_compute. reflexivity.
    + cbn. lia.
  - eapply (proj1 (proj2 (@note_on_delay_check Sample.header Sample.lib))).
    + vm_compute. reflexivity.
    + cbn. lia.
  - refine (proj2 (proj2 (proj2 (@note_on_delay_check Sample.header Sample.lib))
                     ["synthmark"; "-s5"; "-d5"]
                     (set_numSecondsDelayNoteOn 5
                        (set_numSeconds 5 (initial_config Sample.header)))
                     _ _ _ _ _ _ _ _) _);
      first [reflexivity | vm_compute; intuition (reflexivity || discriminate)].
Defined.

(** A utilization run that the stand-in library fails (200 voices)
    returns its code 2; one that it passes returns 0. *)
Lemma exit_status_is_result_code_run :
  exit_status (Sample.run ["synthmark"; "-n200"; "-tu"]) = 2
  /\ exit_status (Sample.run ["synthmark"; "-n20"; "-tu"]) = 0.
Proof.
  split.
  - refine (eq_trans
              (proj1 (proj1 (@exit_status_is_result_code Sample.header Sample.lib)
                        ["synthmark"; "-n200"; "-tu"]
                        {| Sample.kind := UtilizationMark; Sample.cpu := -1;
                           Sample.voices := 200; Sample.voicesHigh := 0;
                           Sample.delay := 0 |}
                        48000 64 10 _))
              _).
    + vm_compute. tauto.
    + reflexivity.
  - refine (eq_trans
              (proj1 (proj1 (@exit_status_is_result_code Sample.header Sample.lib)
                        ["synthmark"; "-n20"; "-tu"]
                        {| Sample.kind := UtilizationMark; Sample.cpu := -1;
                           Sample.voices := 20; Sample.voicesHigh := 0;
                           Sample.delay := 0 |}
                        48000 64 10 _))
              _).
    + vm_compute. tauto.
    + reflexivity.
Defined.

(** [-s0] is rejected, and so is [-sabc], which sets the duration to 0. *)
Lemma short_duration_rejected_run :
  rejected (Sample.run ["synthmark"; "-s0"])
  /\ Sample.parsed ["synthmark"; "-tj"; "-sabc"]
     = Some (set_numSeconds 0 (set_testCode "j" (initial_config Sample.header)))
  /\ rejected (Sample.run ["synthmark"; "-tj"; "-sabc"]).
Proof.
  split.
  - eapply (proj1 (@short_duration_rejected Sample.header Sample.lib)).
    + vm_compute. reflexivity.
    + cbn. lia.
  - apply (proj2 (@short_duration_rejected Sample.header Sample.lib)
             "synthmark" ["-tj"]
             (set_testCode "j" (initial_config Sample.header)) "abc").
    + reflexivity.
    + reflexivity.
Defined.

(** [-?] after a setting: banner, usage text, status 0, whatever follows. *)
Lemma help_returns_zero_run :
  Sample.run ["synthmark"; "-n4"; "-?"; "-n-3"; "stray"]
  = ((banner Sample.header ++ usage_text Sample.header "synthmark")%list, Return 0).
Proof.
  apply (@help_returns_zero Sample.header Sample.lib
           "synthmark" ["-n4"] "-?" ["-n-3"; "stray"]).
  - reflexivity.
  - reflexivity.
Defined.

(** * Further properties of the driver *)

Section ArgumentLoop.

Variable K : Constants.
Context {L : HarnessLib}.

(** *** Sequencing *)

Lemma bind_assoc {A B C : Type} (m : Run A) (f : A -> Run B) (g : B -> Run C) :
  bind (bind m f) g = bind m (fun a => bind (f a) g).
Proof.
  destruct m as [t [a|s]]; [|reflexivity]. cbn [bind].
  destruct (f a) as [t1 [b|s1]]; cbn [bind]; [|reflexivity].
  destruct (g b) as [t2 r]. now rewrite app_assoc.
Qed.

Lemma bind_ret_nil {A B : Type} (a : A) (f : A -> Run B) :
  bind ([], Next a) f = f a.
Proof. cbn [bind]. now destruct (f a). Qed.

Lemma parse_args_cat (name : string) (xs ys : list string) (cfg : Config) :
  parse_args K name (xs ++ ys) cfg
  = bind (parse_args K name xs cfg) (fun c => parse_args K name ys c).
Proof.
  revert cfg. induction xs as [|x xs IH]; intros cfg.
  - cbn [app parse_args]. unfold ret. now rewrite bind_ret_nil.
  - cbn [app parse_args].
    destruct (parse_arg K name x cfg) as [t [c|s]]; cbn [bind]; [|reflexivity].
    rewrite IH.
    destruct (parse_args K name xs c) as [t1 [c1|s1]]; cbn [bind]; [|reflexivity].
    destruct (parse_args K name ys c1) as [t2 r2]. now rewrite app_assoc.
Qed.

(** [main] reads [argv] only through its first element and the outcome
    of the argument loop. *)
Lemma main_same_parse (argv argv' : list string) :
  hd "" argv = hd "" argv' ->
  parse_args K (hd "" argv) (tl argv) (initial_config K)
  = parse_args K (hd "" argv') (tl argv') (initial_config K) ->
  main K argv = main K argv'.
Proof. unfold main. now intros <- ->. Qed.

(** *** One argument *)

Lemma setting_letter (arg : string) :
  is_setting arg = true ->
  char_at arg 0 = "-"%char
  /\ In (char_at arg 1) ["c"; "p"; "n"; "N"; "d"; "r"; "s"; "b"; "t"]%char.
Proof.
  unfold is_setting. intros H. apply andb_true_iff in H. destruct H as [H0 H1].
  split; [now apply Ascii.eqb_eq|].
  apply existsb_exists in H1. destruct H1 as (c & Hin & Hc).
  apply Ascii.eqb_eq in Hc. now rewrite Hc.
Qed.

(** What each of the nine setting switches stores. *)
Lemma parse_arg_setting (name arg : string) (cfg : Config) :
  is_setting arg = true ->
  exists cfg',
    parse_arg K name arg cfg = ([], Next cfg')
    /\ ((char_at arg 1 = "c"%char /\ cfg' = set_cpuAffinity (atoi (from 2 arg)) cfg)
        \/ (char_at arg 1 = "p"%char
            /\ cfg' = set_percentCpu (atoi (from 2 arg)) cfg)
        \/ (char_at arg 1 = "n"%char
            /\ cfg' = set_numVoices (atoi (from 2 arg)) cfg)
        \/ (char_at arg 1 = "N"%char
            /\ cfg' = set_numVoicesHigh (atoi (from 2 arg)) cfg)
        \/ (char_at arg 1 = "d"%char
            /\ cfg' = set_numSecondsDelayNoteOn (atoi (from 2 arg)) cfg)
        \/ (char_at arg 1 = "r"%char
            /\ cfg' = set_sampleRate (atoi (from 2 arg)) cfg)
        \/ (char_at arg 1 = "s"%char
            /\ cfg' = set_numSeconds (atoi (from 2 arg)) cfg)
        \/ (char_at arg 1 = "b"%char
            /\ cfg' = set_framesPerBurst (atoi (from 2 arg)) cfg)
        \/ (char_at arg 1 = "t"%char /\ cfg' = set_testCode (char_at arg 2) cfg)).
Proof.
  intros H. destruct (setting_letter arg H) as [H0 H1].
  unfold parse_arg. rewrite H0. cbn [Ascii.eqb Bool.eqb].
  cbn [In] in H1.
  repeat (destruct H1 as [H1|H1];
          [rewrite <- H1; eexists; split; [reflexivity|]; tauto|]).
  destruct H1.
Qed.

Lemma is_setting_not_help (arg : string) :
  is_setting arg = true -> is_help arg = false.
Proof.
  intros H. destruct (setting_letter arg H) as [H0 H1].
  unfold is_help. cbn [In] in H1.
  repeat (destruct H1 as [H1|H1]; [rewrite <- H1; apply andb_false_r|]).
  destruct H1.
Qed.

(** An argument that is neither a setting nor a help switch: the message
    says whether it started with a dash. *)
Lemma parse_arg_unrecognized (name arg : string) (cfg : Config) :
  recognized arg = false ->
  parse_arg K name arg cfg
  = (Printf (if (char_at arg 0 =? "-")%char
             then "Unrecognized switch: %s\n"
             else "Unrecognized argument: %s\n") [AStr arg]
       :: usage_text K name, Return 1).
Proof.
  unfold recognized, is_setting, is_help, parse_arg.
  destruct (char_at arg 0 =? "-")%char; [|reflexivity].
  cbn [andb existsb]. intros H.
  repeat match type of H with
         | context [(char_at arg 1 =? ?c)%char] =>
             destruct (char_at arg 1 =? c)%char; [cbn in H; discriminate|]
         end.
  reflexivity.
Qed.

(** *** The loop *)

Lemma bind_ext {A B : Type} (m : Run A) (f g : A -> Run B) :
  (forall a, f a = g a) -> bind m f = bind m g.
Proof. intros H. destruct m as [t [a|s]]; [|reflexivity]. cbn [bind]. now rewrite H. Qed.

(** Setting switches alone: the loop ends normally, having applied their
    effects from left to right. *)
Lemma parse_args_settings (name : string) (args : list string) (cfg : Config) :
  forallb is_setting args = true ->
  parse_args K name args cfg
  = ([], Next (fold_left (fun c arg => setting_effect K name arg c) args cfg)).
Proof.
  revert cfg. induction args as [|arg args IH]; intros cfg Hall; [reflexivity|].
  cbn [forallb] in Hall. apply andb_true_iff in Hall. destruct Hall as [Ha Hr].
  destruct (parse_arg_setting name arg cfg Ha) as (cfg' & E & _).
  cbn [parse_args fold_left]. unfold setting_effect at 2. rewrite E, bind_ret_nil.
  apply IH, Hr.
Qed.

Lemma parse_args_next (name : string) (args : list string) (cfg cfg' : Config)
    (t : list Event) :
  parse_args K name args cfg = (t, Next cfg') ->
  forallb is_setting args = true.
Proof.
  revert cfg cfg' t.
  induction args as [|arg args IH]; intros cfg cfg' t; [reflexivity|].
  cbn [parse_args forallb].
  destruct (parse_arg_cases K name arg cfg)
    as [[Hs [c E]] | [[_ E] | [_ [u [E _]]]]]; rewrite E; cbn [bind];
    [|discriminate..].
  rewrite Hs. destruct (parse_args K name args c) as [t1 [c1|s1]] eqn:E1;
    [|discriminate].
  intros _. exact (IH c c1 t1 E1).
Qed.

(** The loop left [main]: the arguments before the offending one were all
    settings, and the text printed is that of the offending argument. *)
Lemma parse_args_stop (name : string) (args : list string) (cfg : Config)
    (t : list Event) (s : Z) :
  parse_args K name args cfg = (t, Return s) ->
  exists (pre : list string) (arg : string) (post : list string),
    args = (pre ++ arg :: post)%list
    /\ forallb is_setting pre = true
    /\ ((is_help arg = true /\ s = 0 /\ t = usage_text K name)
        \/ (recognized arg = false /\ s = 1
            /\ t = Printf (if (char_at arg 0 =? "-")%char
                           then "Unrecognized switch: %s\n"
                           else "Unrecognized argument: %s\n") [AStr arg]
                     :: usage_text K name)).
Proof.
  revert cfg. induction args as [|arg args IH]; intros cfg; [discriminate|].
  cbn [parse_args].
  destruct (parse_arg_cases K name arg cfg)
    as [[Hs [c E]] | [[Hh E] | [Hn _]]].
  - rewrite E, bind_ret_nil. intros Hstop.
    destruct (IH c Hstop) as (pre & a & post & -> & Hpre & Hcase).
    exists (arg :: pre), a, post.
    split; [reflexivity|]. split; [|exact Hcase].
    cbn [forallb]. now rewrite Hs.
  - rewrite E. cbn [bind]. intros [= <- <-].
    exists [], arg, args.
    split; [reflexivity|]. split; [reflexivity|]. left. auto.
  - rewrite (parse_arg_unrecognized name arg cfg Hn). cbn [bind]. intros [= <- <-].
    exists [], arg, args.
    split; [reflexivity|]. split; [reflexivity|]. right. auto.
Qed.

(** Two arguments in a row, as one step. *)
Lemma parse_args_two (name a b : string) (post : list string) (cfg : Config) :
  parse_args K name (a :: b :: post) cfg
  = bind (bind (parse_arg K name a cfg) (parse_arg K name b))
         (fun c => parse_args K name post c).
Proof. cbn [parse_args]. now rewrite bind_assoc. Qed.

Lemma same_switch_twice (name a b : string) (cfg : Config) :
  is_setting a = true ->
  char_at b 0 = "-"%char ->
  char_at b 1 = char_at a 1 ->
  bind (parse_arg K name a cfg) (parse_arg K name b) = parse_arg K name b cfg.
Proof.
  intros Ha Hb0 Hb1.
  destruct (setting_letter a Ha) as [Ha0 Ha1]. cbn [In] in Ha1.
  unfold parse_arg. rewrite Ha0, Hb0, Hb1.
  repeat (destruct Ha1 as [Ha1|Ha1]; [rewrite <- Ha1; reflexivity|]).
  destruct Ha1.
Qed.

Lemma two_switches_swap (name a b : string) (cfg : Config) :
  is_setting a = true ->
  is_setting b = true ->
  char_at a 1 <> char_at b 1 ->
  bind (parse_arg K name a cfg) (parse_arg K name b)
  = bind (parse_arg K name b cfg) (parse_arg K name a).
Proof.
  intros Ha Hb Hne.
  destruct (setting_letter a Ha) as [Ha0 Ha1]. cbn [In] in Ha1.
  destruct (setting_letter b Hb) as [Hb0 Hb1]. cbn [In] in Hb1.
  unfold parse_arg. rewrite Ha0, Hb0.
  repeat (destruct Ha1 as [Ha1|Ha1];
          [rewrite <- Ha1 in *;
           repeat (destruct Hb1 as [Hb1|Hb1];
                   [rewrite <- Hb1 in *; (reflexivity || now destruct Hne)|]);
           destruct Hb1|]).
  destruct Ha1.
Qed.

(** X1.  The argument loop runs to its end exactly when every argument
    after the program name is one of the nine setting switches; the
    locals then hold the effects of the switches applied from left to
    right to the defaults. *)
Theorem settings_defined_iff (argv : list string) :
  ((exists cfg, settings K argv = Some cfg)
   <-> forallb is_setting (tl argv) = true)
  /\ (forallb is_setting (tl argv) = true ->
      settings K argv
      = Some (fold_left (fun c arg => setting_effect K (hd "" argv) arg c)
                (tl argv) (initial_config K))).
Proof.
  assert (Hfold : forallb is_setting (tl argv) = true ->
            settings K argv
            = Some (fold_left (fun c arg => setting_effect K (hd "" argv) arg c)
                      (tl argv) (initial_config K))).
  { intros Hall. unfold settings.
    now rewrite (parse_args_settings (hd "" argv) (tl argv) _ Hall). }
  split; [split|exact Hfold].
  - intros [cfg Hs]. apply settings_parse in Hs.
    exact (parse_args_next _ _ _ _ _ Hs).
  - intros Hall. eexists. exact (Hfold Hall).
Qed.

(** X2.  The first argument that is neither a setting nor a help switch
    ends the program with status 1: after the banner come one line that
    names the argument and the usage text, and nothing else, whatever
    follows.  The line says "argument" when the text does not start with
    a dash (the empty string included) and "switch" when it does (a lone
    dash included). *)
Theorem unrecognized_argument_stops (name : string) (pre : list string)
    (bad : string) (post : list string) :
  forallb is_setting pre = true ->
  recognized bad = false ->
  main K (name :: pre ++ bad :: post)
  = ((banner K
        ++ Printf (if (char_at bad 0 =? "-")%char
                   then "Unrecognized switch: %s\n"
                   else "Unrecognized argument: %s\n") [AStr bad]
        :: usage_text K name)%list,
     Return 1).
Proof.
  intros Hpre Hbad. unfold main. cbn [hd tl bind printf emit].
  rewrite parse_args_cat, (parse_args_settings name pre _ Hpre), bind_ret_nil.
  cbn [parse_args]. rewrite (parse_arg_unrecognized name bad _ Hbad).
  reflexivity.
Qed.

(** X3.  Giving the same setting switch twice in a row is the same as
    giving the second one alone: the later value replaces the earlier
    one, and the whole run is the same. *)
Theorem repeated_setting_last_wins (name : string) (pre : list string)
    (a b : string) (post : list string) :
  is_setting a = true ->
  char_at b 0 = "-"%char ->
  char_at b 1 = char_at a 1 ->
  main K (name :: pre ++ a :: b :: post) = main K (name :: pre ++ b :: post).
Proof.
  intros Ha Hb0 Hb1. apply main_same_parse; [reflexivity|]. cbn [hd tl].
  rewrite !parse_args_cat. apply bind_ext. intros c.
  rewrite parse_args_two, (same_switch_twice name a b c Ha Hb0 Hb1).
  reflexivity.
Qed.

(** X4.  Two adjacent setting switches with different letters can be
    exchanged: each writes its own variable, so the whole run is the
    same. *)
Theorem distinct_settings_commute (name : string) (pre : list string)
    (a b : string) (post : list string) :
  is_setting a = true ->
  is_setting b = true ->
  char_at a 1 <> char_at b 1 ->
  main K (name :: pre ++ a :: b :: post)
  = main K (name :: pre ++ b :: a :: post).
Proof.
  intros Ha Hb Hne. apply main_same_parse; [reflexivity|]. cbn [hd tl].
  rewrite !parse_args_cat. apply bind_ext. intros c.
  now rewrite !parse_args_two, (two_switches_swap name a b c Ha Hb Hne).
Qed.

(** *** Variables a switch leaves alone *)

Lemma setting_effect_keeps (name arg : string) (cfg : Config) :
  is_setting arg = true ->
  (char_at arg 1 <> "c"%char ->
   cpuAffinity (setting_effect K name arg cfg) = cpuAffinity cfg)
  /\ (char_at arg 1 <> "p"%char ->
      percentCpu (setting_effect K name arg cfg) = percentCpu cfg)
  /\ (char_at arg 1 <> "n"%char ->
      numVoices (setting_effect K name arg cfg) = numVoices cfg)
  /\ (char_at arg 1 <> "N"%char ->
      numVoicesHigh (setting_effect K name arg cfg) = numVoicesHigh cfg)
  /\ (char_at arg 1 <> "d"%char ->
      numSecondsDelayNoteOn (setting_effect K name arg cfg)
      = numSecondsDelayNoteOn cfg)
  /\ (char_at arg 1 <> "r"%char ->
      sampleRate (setting_effect K name arg cfg) = sampleRate cfg)
  /\ (char_at arg 1 <> "s"%char ->
      numSeconds (setting_effect K name arg cfg) = numSeconds cfg)
  /\ (char_at arg 1 <> "b"%char ->
      framesPerBurst (setting_effect K name arg cfg) = framesPerBurst cfg)
  /\ (char_at arg 1 <> "t"%char ->
      testCode (setting_effect K name arg cfg) = testCode cfg).
Proof.
  intros H. destruct (parse_arg_setting name arg cfg H) as (c' & E & Hc).
  unfold setting_effect. rewrite E.
  repeat destruct Hc as [Hc|Hc]; destruct Hc as [Hl ->]; rewrite Hl;
    repeat match goal with |- _ /\ _ => split end;
    intros Hne; try reflexivity; now destruct Hne.
Qed.

Lemma settings_fold_keeps (name : string) (args : list string) (cfg : Config) :
  forallb is_setting args = true ->
  (mentions "c" args = false ->
   cpuAffinity (fold_left (fun c a => setting_effect K name a c) args cfg)
   = cpuAffinity cfg)
  /\ (mentions "p" args = false ->
      percentCpu (fold_left (fun c a => setting_effect K name a c) args cfg)
      = percentCpu cfg)
  /\ (mentions "n" args = false ->
      numVoices (fold_left (fun c a => setting_effect K name a c) args cfg)
      = numVoices cfg)
  /\ (mentions "N" args = false ->
      numVoicesHigh (fold_left (fun c a => setting_effect K name a c) args cfg)
      = numVoicesHigh cfg)
  /\ (mentions "d" args = false ->
      numSecondsDelayNoteOn
        (fold_left (fun c a => setting_effect K name a c) args cfg)
      = numSecondsDelayNoteOn cfg)
  /\ (mentions "r" args = false ->
      sampleRate (fold_left (fun c a => setting_effect K name a c) args cfg)
      = sampleRate cfg)
  /\ (mentions "s" args = false ->
      numSeconds (fold_left (fun c a => setting_effect K name a c) args cfg)
      = numSeconds cfg)
  /\ (mentions "b" args = false ->
      framesPerBurst (fold_left (fun c a => setting_effect K name a c) args cfg)
      = framesPerBurst cfg)
  /\ (mentions "t" args = false ->
      testCode (fold_left (fun c a => setting_effect K name a c) args cfg)
      = testCode cfg).
Proof.
  revert cfg. induction args as [|arg args IH]; intros cfg Hall.
  - cbn [fold_left]. tauto.
  - cbn [forallb] in Hall. apply andb_true_iff in Hall. destruct Hall as [Ha Hr].
    cbn [fold_left].
    destruct (IH (setting_effect K name arg cfg) Hr)
      as (I1 & I2 & I3 & I4 & I5 & I6 & I7 & I8 & I9).
    destruct (setting_effect_keeps name arg cfg Ha)
      as (S1 & S2 & S3 & S4 & S5 & S6 & S7 & S8 & S9).
    repeat match goal with |- _ /\ _ => split end;
      intros Hm; cbn [mentions existsb] in Hm;
      apply orb_false_iff in Hm; destruct Hm as [Hx Hy];
      apply Ascii.eqb_neq in Hx.
    + rewrite (I1 Hy). exact (S1 Hx).
    + rewrite (I2 Hy). exact (S2 Hx).
    + rewrite (I3 Hy). exact (S3 Hx).
    + rewrite (I4 Hy). exact (S4 Hx).
    + rewrite (I5 Hy). exact (S5 Hx).
    + rewrite (I6 Hy). exact (S6 Hx).
    + rewrite (I7 Hy). exact (S7 Hx).
    + rewrite (I8 Hy). exact (S8 Hx).
    + rewrite (I9 Hy). exact (S9 Hx).
Qed.

(** X5.  A variable whose switch letter occurs in no argument still has
    its default when the loop ends: the header's CPU sentinel, target
    percentage, sample rate and burst size, 8 voices, no high voice
    count, no note-on delay, 10 seconds and the voice test. *)
Theorem untouched_settings_keep_defaults (argv : list string) (cfg : Config) :
  settings K argv = Some cfg ->
  (mentions "c" (tl argv) = false ->
   cpuAffinity cfg = SYNTHMARK_CPU_UNSPECIFIED K)
  /\ (mentions "p" (tl argv) = false -> percentCpu cfg = TARGET_CPU_PERCENT K)
  /\ (mentions "n" (tl argv) = false -> numVoices cfg = 8)
  /\ (mentions "N" (tl argv) = false -> numVoicesHigh cfg = 0)
  /\ (mentions "d" (tl argv) = false -> numSecondsDelayNoteOn cfg = 0)
  /\ (mentions "r" (tl argv) = false -> sampleRate cfg = SYNTHMARK_SAMPLE_RATE K)
  /\ (mentions "s" (tl argv) = false -> numSeconds cfg = 10)
  /\ (mentions "b" (tl argv) = false ->
      framesPerBurst cfg = SYNTHMARK_FRAMES_PER_BURST K)
  /\ (mentions "t" (tl argv) = false -> testCode cfg = "v"%char).
Proof.
  intros Hs. apply settings_parse in Hs.
  pose proof (parse_args_next _ _ _ _ _ Hs) as Hall.
  rewrite (parse_args_settings _ _ _ Hall) in Hs. injection Hs as <-.
  exact (settings_fold_keeps (hd "" argv) (tl argv) (initial_config K) Hall).
Qed.

(** *** What a switch reads of its text *)

Lemma settings_snoc (name : string) (args : list string) (arg : string)
    (cfg : Config) :
  settings K (name :: args) = Some cfg ->
  settings K (name :: args ++ [arg])
  = match parse_arg K name arg cfg with
    | (_, Next cfg') => Some cfg'
    | (_, Return _) => None
    end.
Proof.
  intros Hs. apply settings_parse in Hs. cbn [hd tl] in Hs.
  unfold settings. cbn [hd tl].
  rewrite parse_args_cat, Hs, bind_ret_nil. cbn [parse_args].
  destruct (parse_arg K name arg cfg) as [t [c|s]]; reflexivity.
Qed.

(** X7.  The test code is the one character that follows [-t]; further
    characters are not read.  A bare [-t] stores the terminator as the
    test code, and such a run is always turned down with status 1. *)
Theorem test_code_is_first_character (name : string) (args : list string)
    (cfg : Config) :
  settings K (name :: args) = Some cfg ->
  (forall (c : ascii) (rest : string),
      settings K (name :: args ++ [String "-" (String "t" (String c rest))])
      = Some (set_testCode c cfg))
  /\ settings K (name :: args ++ ["-t"]) = Some (set_testCode Ascii.zero cfg)
  /\ rejected (main K (name :: args ++ ["-t"])).
Proof.
  intros Hs.
  assert (Hbare : settings K (name :: args ++ ["-t"])
                  = Some (set_testCode Ascii.zero cfg))
    by (now rewrite (settings_snoc name args "-t" cfg Hs)).
  split; [|split; [exact Hbare|]].
  - intros c rest. now rewrite (settings_snoc name args _ cfg Hs).
  - apply idle_rejected.
    destruct (valid K (set_testCode Ascii.zero cfg)) eqn:Hv.
    + now apply (main_unselected K _ _ Hbare Hv).
    + now apply (main_rejected K _ _ Hbare Hv).
Qed.

Lemma read_digits_suffix (acc : Z) (s t : string) :
  digit_ahead t = false ->
  read_digits acc (s ++ t) = read_digits acc s.
Proof.
  intros Ht. revert acc. induction s as [|c s IH]; intros acc.
  - cbn [append read_digits]. destruct t as [|d t]; [reflexivity|].
    cbn [read_digits]. cbn [digit_ahead] in Ht. now rewrite Ht.
  - cbn [append read_digits]. destruct (isdigit c); [apply IH|reflexivity].
Qed.

Lemma skip_spaces_suffix (s t : string) :
  skip_spaces s <> "" ->
  skip_spaces (s ++ t) = (skip_spaces s ++ t)%string.
Proof.
  induction s as [|c s IH]; [now intros []|].
  cbn [append skip_spaces]. destruct (isspace c); [exact IH|reflexivity].
Qed.

(** Text after the number does not change what [atoi] returns. *)
Lemma atoi_suffix (s t : string) :
  convertible s = true ->
  digit_ahead t = false ->
  atoi (s ++ t) = atoi s.
Proof.
  unfold convertible, atoi, strtol, parse_decimal. intros Hs Ht.
  destruct (skip_spaces s) as [|c r] eqn:E; [discriminate|].
  rewrite skip_spaces_suffix by (rewrite E; discriminate).
  rewrite E. cbn [append].
  destruct (c =? "-")%char; [now rewrite read_digits_suffix|].
  destruct (c =? "+")%char; [now rewrite read_digits_suffix|].
  change (String c (r ++ t)) with (String c r ++ t)%string.
  now rewrite (read_digits_suffix 0 (String c r) t Ht).
Qed.

(** X8.  For the eight numeric switches, text that follows the number
    (and does not begin with another digit) is ignored: [-n12abc] runs
    exactly as [-n12] does. *)
Theorem number_suffix_ignored (name : string) (pre : list string) (sw : ascii)
    (s t : string) (post : list string) :
  numeric_switch sw = true ->
  convertible s = true ->
  digit_ahead t = false ->
  main K (name :: pre ++ String "-" (String sw (s ++ t)) :: post)
  = main K (name :: pre ++ String "-" (String sw s) :: post).
Proof.
  intros Hsw Hs Ht. apply main_same_parse; [reflexivity|]. cbn [hd tl].
  rewrite !parse_args_cat. apply bind_ext. intros c. cbn [parse_args].
  apply (f_equal (fun m => bind m (fun c' => parse_args K name post c'))).
  unfold numeric_switch in Hsw. apply existsb_exists in Hsw.
  destruct Hsw as (l & Hin & Hl). apply Ascii.eqb_eq in Hl. subst l.
  unfold parse_arg, char_at. cbn [String.get from Nat.eqb].
  cbn [In] in Hin.
  repeat (destruct Hin as [Hin|Hin];
          [rewrite <- Hin; cbn [Ascii.eqb Bool.eqb];
           now rewrite (atoi_suffix s t Hs Ht)|]).
  destruct Hin.
Qed.

End ArgumentLoop.

Section WholeRun.

Variable K : Constants.
Context {L : HarnessLib}.

(** *** The three ways [main] ends without a test *)

Lemma main_parse_stop (argv : list string) (t : list Event) (s : Z) :
  parse_args K (hd "" argv) (tl argv) (initial_config K) = (t, Return s) ->
  main K argv = ((banner K ++ t)%list, Return s).
Proof. intros E. unfold main. cbn [bind printf emit]. now rewrite E. Qed.

Lemma main_validate_stop (argv : list string) (cfg : Config)
    (t : list Event) (s : Z) :
  settings K argv = Some cfg ->
  validate K (hd "" argv) cfg = (t, Return s) ->
  main K argv = ((banner K ++ t)%list, Return s).
Proof.
  intros Hs E. apply settings_parse in Hs.
  unfold main. rewrite Hs. cbn [bind printf emit]. now rewrite E.
Qed.

Lemma main_unselected_trace (argv : list string) (cfg : Config) :
  settings K argv = Some cfg ->
  valid K cfg = true ->
  selected (testCode cfg) = None ->
  main K argv
  = ((banner K
        ++ CallSetRequestedCpu (cpuAffinity cfg)
        :: Printf "ERROR - unrecognized testCode = %c\n" [AChar (testCode cfg)]
        :: usage_text K (hd "" argv))%list,
     Return 1).
Proof.
  intros Hs Hv Hc. apply settings_parse in Hs.
  unfold main. rewrite Hs. cbn [bind printf emit].
  rewrite (validate_accepts _ _ _ Hv). unfold create_harness.
  unfold selected in Hc.
  destruct (testCode cfg =? "v")%char; [discriminate|].
  destruct (testCode cfg =? "l")%char; [discriminate|].
  destruct (testCode cfg =? "j")%char; [discriminate|].
  destruct (testCode cfg =? "u")%char; [discriminate|].
  reflexivity.
Qed.

(** The message of each validation condition, the first that fires
    deciding; the delay message alone comes without the usage text. *)
Lemma validate_report (name : string) (cfg : Config) :
  (bad_percentCpu cfg = true ->
   validate K name cfg
   = (Printf "Invalid percent CPU = %d\n" [AInt (percentCpu cfg)]
        :: usage_text K name, Return 1))
  /\ (bad_percentCpu cfg = false -> bad_numVoices K cfg = true ->
      validate K name cfg
      = (Printf "Invalid num voices = %d\n" [AInt (numVoices cfg)]
           :: usage_text K name, Return 1))
  /\ (bad_percentCpu cfg = false -> bad_numVoices K cfg = false ->
      bad_numVoicesHigh cfg = true ->
      validate K name cfg
      = (Printf "Invalid num voices high = %d\n" [AInt (numVoicesHigh cfg)]
           :: usage_text K name, Return 1))
  /\ (bad_percentCpu cfg = false -> bad_numVoices K cfg = false ->
      bad_numVoicesHigh cfg = false -> high_without_latency cfg = true ->
      validate K name cfg
      = (Printf "Num voices high only supported for LatencyMark\n" []
           :: usage_text K name, Return 1))
  /\ (bad_percentCpu cfg = false -> bad_numVoices K cfg = false ->
      bad_numVoicesHigh cfg = false -> high_without_latency cfg = false ->
      bad_numSeconds cfg = true ->
      validate K name cfg
      = (Printf "Invalid duration in seconds = %d\n" [AInt (numSeconds cfg)]
           :: usage_text K name, Return 1))
  /\ (bad_percentCpu cfg = false -> bad_numVoices K cfg = false ->
      bad_numVoicesHigh cfg = false -> high_without_latency cfg = false ->
      bad_numSeconds cfg = false -> bad_noteOnDelay cfg = true ->
      validate K name cfg
      = ([Printf "Invalid delay for note on = %d\n"
            [AInt (numSecondsDelayNoteOn cfg)]], Return 1))
  /\ (bad_percentCpu cfg = false -> bad_numVoices K cfg = false ->
      bad_numVoicesHigh cfg = false -> high_without_latency cfg = false ->
      bad_numSeconds cfg = false -> bad_noteOnDelay cfg = false ->
      bad_framesPerBurst cfg = true ->
      validate K name cfg
      = (Printf "Block size too small = %d\n" [AInt (framesPerBurst cfg)]
           :: usage_text K name, Return 1)).
Proof.
  unfold validate.
  repeat match goal with |- _ /\ _ => split end; intros;
    repeat match goal with E : _ = _ |- _ => rewrite E; clear E end;
    reflexivity.
Qed.

(** A run that passed validation with one of the four codes, in full:
    the calls into the library, the harness object that [runTest]
    receives, and what is printed once it returns. *)
Lemma main_run_shape (argv : list string) (cfg : Config) (k : HarnessKind) :
  settings K argv = Some cfg ->
  valid K cfg = true ->
  selected (testCode cfg) = Some k ->
  let audioSink := setRequestedCpu (cpuAffinity cfg) new_sink in
  let built :=
    match k with
    | VoiceMark =>
        setInitialVoiceCount (numVoices cfg)
          (setTargetCpuLoad (target_load cfg) (new_harness VoiceMark audioSink))
    | LatencyMark =>
        setNumVoicesHigh (numVoicesHigh cfg) (new_harness LatencyMark audioSink)
    | JitterMark => new_harness JitterMark audioSink
    | UtilizationMark =>
        setNumVoices (numVoices cfg) (new_harness UtilizationMark audioSink)
    end in
  let harness :=
    setDelayNotesOn (numSecondsDelayNoteOn cfg)
      (setNumVoices (numVoices cfg) built) in
  let result :=
    runTest harness (sampleRate cfg) (framesPerBurst cfg) (numSeconds cfg)
      new_result in
  calls (trace (main K argv))
  = (CallSetRequestedCpu (cpuAffinity cfg)
       :: Construct k
       :: match k with
          | VoiceMark => [CallSetTargetCpuLoad (target_load cfg);
                          CallSetInitialVoiceCount (numVoices cfg)]
          | LatencyMark => [CallSetNumVoicesHigh (numVoicesHigh cfg)]
          | JitterMark => []
          | UtilizationMark => [CallSetNumVoices (numVoices cfg)]
          end
       ++ [CallSetNumVoices (numVoices cfg);
           CallSetDelayNotesOn (numSecondsDelayNoteOn cfg);
           CallRunTest harness (sampleRate cfg) (framesPerBurst cfg)
             (numSeconds cfg)])%list
  /\ last_events 4 (trace (main K argv))
     = [Printf "RESULTS BEGIN\n" []; Cout (getResultMessage result);
        Printf "RESULTS END\n" []; Printf "Benchmark complete.\n" []]
  /\ result_messages (trace (main K argv)) = [getResultMessage result]
  /\ cpu_requests (trace (main K argv)) = [cpuAffinity cfg]
  /\ hd_error (trace (main K argv)) = hd_error (banner K)
  /\ exit_status (main K argv) = getResultCode result.
Proof.
  intros Hs Hv Hc. apply settings_parse in Hs.
  unfold main. rewrite Hs. cbn [bind printf emit].
  rewrite (validate_accepts _ _ _ Hv). unfold create_harness, target_load.
  unfold selected in Hc.
  destruct (testCode cfg =? "v")%char;
    [|destruct (testCode cfg =? "l")%char;
      [|destruct (testCode cfg =? "j")%char;
        [|destruct (testCode cfg =? "u")%char; [|discriminate]]]];
    injection Hc as <-; cbn; repeat split.
Qed.

(** *** Small facts for the statements below *)

Lemma prints_no_output_calls (t : list Event) :
  forallb is_print t = true ->
  result_messages t = [] /\ cpu_requests t = [] /\ calls t = [].
Proof.
  induction t as [|e t IH]; [easy|].
  destruct e; cbn; try discriminate. exact IH.
Qed.



(** X10.  A test is run exactly when the argument loop ends normally
    with: a percentage in [1, 100]; a voice count in [0, MAX_VOICES] that
    is at least 1 or comes with a positive high count; a high count that
    is 0 or else at least the voice count and used with test 'l'; a
    duration of at least 1 s; a delay in [0, duration]; a burst of at
    least 4 frames; and one of the test codes v, l, j, u.  Sample rate
    and CPU index play no part. *)
Theorem test_runs_iff (argv : list string) :
  test_runs (trace (main K argv)) <> []
  <-> exists cfg : Config,
        settings K argv = Some cfg
        /\ 1 <= percentCpu cfg <= 100
        /\ 0 <= numVoices cfg <= SYNTHMARK_MAX_VOICES K
        /\ (1 <= numVoices cfg \/ 0 < numVoicesHigh cfg)
        /\ (numVoicesHigh cfg = 0
            \/ (numVoices cfg <= numVoicesHigh cfg /\ testCode cfg = "l"%char))
        /\ 1 <= numSeconds cfg
        /\ 0 <= numSecondsDelayNoteOn cfg <= numSeconds cfg
        /\ 4 <= framesPerBurst cfg
        /\ In (testCode cfg) ["v"; "l"; "j"; "u"]%char.
Proof.
  split.
  - intros Hrun.
    destruct (settings K argv) as [cfg|] eqn:Hs.
    2:{ destruct (main_stopped K argv Hs) as (_ & _ & Hr & _). contradiction. }
    destruct (valid K cfg) eqn:Hv.
    2:{ destruct (main_rejected K argv cfg Hs Hv) as (_ & _ & Hr & _).
        contradiction. }
    destruct (selected (testCode cfg)) as [k|] eqn:Hk.
    2:{ destruct (main_unselected K argv cfg Hs Hv Hk) as (_ & _ & Hr & _).
        contradiction. }
    exists cfg. apply valid_arith in Hv.
    assert (Hin : In (testCode cfg) ["v"; "l"; "j"; "u"]%char)
      by (apply selected_some_iff; now exists k).
    tauto.
  - intros (cfg & Hs & H).
    assert (Hv : valid K cfg = true) by (apply valid_arith; tauto).
    assert (Hk : exists k, selected (testCode cfg) = Some k)
      by (apply selected_some_iff; tauto).
    destruct Hk as [k Hk].
    destruct (main_runs K argv cfg k Hs Hv Hk) as (h & _ & Hr & _).
    rewrite Hr. discriminate.
Qed.

(** X11.  One invocation builds at most one harness and runs at most one
    test, and it builds a harness exactly when it runs it: either nothing
    is built or run and [main] returns 0 or 1, or one harness is built and
    [runTest] is called once. *)
Theorem one_harness_one_run (argv : list string) :
  (constructed (trace (main K argv)) = []
   /\ test_runs (trace (main K argv)) = []
   /\ (exit_status (main K argv) = 0 \/ exit_status (main K argv) = 1))
  \/ (exists (k : HarnessKind) (r : Z * Z * Z),
         constructed (trace (main K argv)) = [k]
         /\ test_runs (trace (main K argv)) = [r]).
Proof.
  destruct (settings K argv) as [cfg|] eqn:Hs.
  2:{ left. destruct (main_stopped K argv Hs) as (Hx & Hc & Hr & _). auto. }
  destruct (valid K cfg) eqn:Hv.
  2:{ left. destruct (main_rejected K argv cfg Hs Hv) as (Hx & Hc & Hr & _).
      auto. }
  destruct (selected (testCode cfg)) as [k|] eqn:Hk.
  2:{ left. destruct (main_unselected K argv cfg Hs Hv Hk) as (Hx & Hc & Hr & _).
      auto. }
  right. destruct (main_runs K argv cfg k Hs Hv Hk) as (h & Hc & Hr & _).
  eauto.
Qed.

(** X12.  [main] returns 0 without running a test exactly when the first
    argument that is not a setting switch is a help switch. *)
Theorem zero_without_run_iff_help (argv : list string) :
  (exit_status (main K argv) = 0 /\ test_runs (trace (main K argv)) = [])
  <-> exists (pre : list string) (help : string) (post : list string),
        tl argv = (pre ++ help :: post)%list
        /\ forallb is_setting pre = true
        /\ is_help help = true.
Proof.
  split.
  - intros [H0 Hr].
    destruct (settings K argv) as [cfg|] eqn:Hs.
    + destruct (valid K cfg) eqn:Hv.
      2:{ destruct (main_rejected K argv cfg Hs Hv) as (Hx & _). lia. }
      destruct (selected (testCode cfg)) as [k|] eqn:Hk.
      2:{ destruct (main_unselected K argv cfg Hs Hv Hk) as (Hx & _). lia. }
      destruct (main_runs K argv cfg k Hs Hv Hk) as (h & _ & Hr' & _).
      rewrite Hr' in Hr. discriminate.
    + unfold settings in Hs.
      destruct (parse_args K (hd "" argv) (tl argv) (initial_config K))
        as [t [c|s]] eqn:E; [discriminate|].
      rewrite (main_parse_stop argv t s E) in H0. cbn in H0.
      destruct (parse_args_stop K _ _ _ _ _ E)
        as (pre & a & post & Hsplit & Hpre & [[Hh _] | [_ [Hs1 _]]]).
      * now exists pre, a, post.
      * lia.
  - intros (pre & help & post & Hsplit & Hpre & Hh).
    assert (E : parse_args K (hd "" argv) (tl argv) (initial_config K)
                = (usage_text K (hd "" argv), Return 0)).
    { rewrite Hsplit, parse_args_cat, (parse_args_settings K _ pre _ Hpre),
        bind_ret_nil.
      cbn [parse_args]. now rewrite (parse_arg_help K _ help _ Hh). }
    rewrite (main_parse_stop argv _ _ E). split; [reflexivity|].
    apply (idle_prints (banner K ++ usage_text K (hd "" argv))). reflexivity.
Qed.

(** X13.  After [runTest] returns, the message of the result object it
    left is the one string sent to [std::cout], and the output ends with
    "RESULTS BEGIN", that message, "RESULTS END" and "Benchmark
    complete.": the message shown belongs to the same result as the code
    returned.  A run that calls no [runTest] sends nothing to
    [std::cout]. *)
Theorem result_message_printed (argv : list string) :
  (forall (h : TestHarnessBase) (r b s : Z),
      In (CallRunTest h r b s) (trace (main K argv)) ->
      result_messages (trace (main K argv))
      = [getResultMessage (runTest h r b s new_result)]
      /\ last_events 4 (trace (main K argv))
         = [Printf "RESULTS BEGIN\n" [];
            Cout (getResultMessage (runTest h r b s new_result));
            Printf "RESULTS END\n" []; Printf "Benchmark complete.\n" []])
  /\ (test_runs (trace (main K argv)) = [] ->
      result_messages (trace (main K argv)) = []).
Proof.
  destruct (settings K argv) as [cfg|] eqn:Hs.
  2:{ pose proof (main_stopped K argv Hs) as (_ & Hi).
      split; [intros h r b s Hin; now destruct (idle_no_run _ h r b s Hi)|].
      intros _. unfold settings in Hs.
      destruct (parse_args_flow K (hd "" argv) (tl argv) (initial_config K))
        as [[c E] | [t [s [E [Ht _]]]]]; rewrite E in Hs; [discriminate|].
      rewrite (main_parse_stop argv t s E).
      now apply (prints_no_output_calls (banner K ++ t)). }
  destruct (valid K cfg) eqn:Hv.
  2:{ pose proof (main_rejected K argv cfg Hs Hv) as (_ & Hi).
      split; [intros h r b s Hin; now destruct (idle_no_run _ h r b s Hi)|].
      intros _. destruct (validate_rejects K (hd "" argv) cfg Hv) as (t & E & Ht).
      rewrite (main_validate_stop argv cfg t 1 Hs E).
      now apply (prints_no_output_calls (banner K ++ t)). }
  destruct (selected (testCode cfg)) as [k|] eqn:Hk.
  2:{ pose proof (main_unselected K argv cfg Hs Hv Hk) as (_ & Hi).
      split; [intros h r b s Hin; now destruct (idle_no_run _ h r b s Hi)|].
      intros _. now rewrite (main_unselected_trace argv cfg Hs Hv Hk). }
  destruct (main_runs K argv cfg k Hs Hv Hk) as (h0 & _ & Hr & _ & Huniq & Hin0 & _).
  destruct (main_run_shape argv cfg k Hs Hv Hk) as (_ & Hlast & Hmsg & _).
  cbv zeta in Hlast, Hmsg.
  split.
  - intros h r b s Hin.
    destruct (Huniq h r b s Hin) as (-> & -> & -> & ->).
    destruct (main_run_shape argv cfg k Hs Hv Hk) as (Hcalls & _).
    cbv zeta in Hcalls.
    assert (Hc : In (CallRunTest h0 (sampleRate cfg) (framesPerBurst cfg)
                       (numSeconds cfg)) (calls (trace (main K argv))))
      by (apply filter_In; split; [exact Hin|reflexivity]).
    rewrite Hcalls in Hc.
    assert (E : h0
                = setDelayNotesOn (numSecondsDelayNoteOn cfg)
                    (setNumVoices (numVoices cfg)
                       match k with
                       | VoiceMark =>
                           setInitialVoiceCount (numVoices cfg)
                             (setTargetCpuLoad (target_load cfg)
                                (new_harness VoiceMark
                                   (setRequestedCpu (cpuAffinity cfg) new_sink)))
                       | LatencyMark =>
                           setNumVoicesHigh (numVoicesHigh cfg)
                             (new_harness LatencyMark
                                (setRequestedCpu (cpuAffinity cfg) new_sink))
                       | JitterMark =>
                           new_harness JitterMark
                             (setRequestedCpu (cpuAffinity cfg) new_sink)
                       | UtilizationMark =>
                           setNumVoices (numVoices cfg)
                             (new_harness UtilizationMark
                                (setRequestedCpu (cpuAffinity cfg) new_sink))
                       end)).
    { destruct k; cbn [In app] in Hc;
        repeat (destruct Hc as [Hc|Hc]; [try discriminate|]);
        try (now injection Hc as <-); destruct Hc. }
    rewrite E. split; [exact Hmsg | exact Hlast].
  - intros Hnone. rewrite Hr in Hnone. discriminate.
Qed.

(** X14.  A rejected configuration is reported by the first condition
    that fires, in the order percentage, voice count, high voice count,
    high count without the latency test, duration, delay, burst size:
    after the banner [main] prints that condition's line with the
    offending value, then the usage text, and returns 1.  The line for a
    bad delay is the one that is not followed by the usage text. *)
Theorem first_failure_reported (argv : list string) (cfg : Config) :
  settings K argv = Some cfg ->
  let usage_lines := usage_text K (hd "" argv) in
  (bad_percentCpu cfg = true ->
   main K argv
   = ((banner K ++ Printf "Invalid percent CPU = %d\n" [AInt (percentCpu cfg)]
         :: usage_lines)%list, Return 1))
  /\ (bad_percentCpu cfg = false -> bad_numVoices K cfg = true ->
      main K argv
      = ((banner K ++ Printf "Invalid num voices = %d\n" [AInt (numVoices cfg)]
            :: usage_lines)%list, Return 1))
  /\ (bad_percentCpu cfg = false -> bad_numVoices K cfg = false ->
      bad_numVoicesHigh cfg = true ->
      main K argv
      = ((banner K
            ++ Printf "Invalid num voices high = %d\n" [AInt (numVoicesHigh cfg)]
            :: usage_lines)%list, Return 1))
  /\ (bad_percentCpu cfg = false -> bad_numVoices K cfg = false ->
      bad_numVoicesHigh cfg = false -> high_without_latency cfg = true ->
      main K argv
      = ((banner K
            ++ Printf "Num voices high only supported for LatencyMark\n" []
            :: usage_lines)%list, Return 1))
  /\ (bad_percentCpu cfg = false -> bad_numVoices K cfg = false ->
      bad_numVoicesHigh cfg = false -> high_without_latency cfg = false ->
      bad_numSeconds cfg = true ->
      main K argv
      = ((banner K
            ++ Printf "Invalid duration in seconds = %d\n" [AInt (numSeconds cfg)]
            :: usage_lines)%list, Return 1))
  /\ (bad_percentCpu cfg = false -> bad_numVoices K cfg = false ->
      bad_numVoicesHigh cfg = false -> high_without_latency cfg = false ->
      bad_numSeconds cfg = false -> bad_noteOnDelay cfg = true ->
      main K argv
      = ((banner K
            ++ [Printf "Invalid delay for note on = %d\n"
                  [AInt (numSecondsDelayNoteOn cfg)]])%list, Return 1))
  /\ (bad_percentCpu cfg = false -> bad_numVoices K cfg = false ->
      bad_numVoicesHigh cfg = false -> high_without_latency cfg = false ->
      bad_numSeconds cfg = false -> bad_noteOnDelay cfg = false ->
      bad_framesPerBurst cfg = true ->
      main K argv
      = ((banner K
            ++ Printf "Block size too small = %d\n" [AInt (framesPerBurst cfg)]
            :: usage_lines)%list, Return 1)).
Proof.
  intros Hs usage_lines. subst usage_lines.
  destruct (validate_report (hd "" argv) cfg)
    as (R1 & R2 & R3 & R4 & R5 & R6 & R7).
  repeat match goal with |- _ /\ _ => split end; intros;
    apply (main_validate_stop argv cfg _ 1 Hs); auto.
Qed.


(** X16.  [setRequestedCpu] is called exactly when validation has
    passed, once, with the parsed CPU index, also when the test code then
    turns out to be unknown; with help, an unrecognized argument or a
    rejected setting the sink is never touched. *)
Theorem cpu_requested_iff_valid (argv : list string) :
  cpu_requests (trace (main K argv))
  = match settings K argv with
    | Some cfg => if valid K cfg then [cpuAffinity cfg] else []
    | None => []
    end.
Proof.
  destruct (settings K argv) as [cfg|] eqn:Hs.
  - destruct (valid K cfg) eqn:Hv.
    + destruct (selected (testCode cfg)) as [k|] eqn:Hk.
      * now destruct (main_run_shape argv cfg k Hs Hv Hk) as (_ & _ & _ & Hc & _).
      * now rewrite (main_unselected_trace argv cfg Hs Hv Hk).
    + destruct (validate_rejects K (hd "" argv) cfg Hv) as (t & E & Ht).
      rewrite (main_validate_stop argv cfg t 1 Hs E).
      now apply (prints_no_output_calls (banner K ++ t)).
  - unfold settings in Hs.
    destruct (parse_args_flow K (hd "" argv) (tl argv) (initial_config K))
      as [[c E] | [t [s [E [Ht _]]]]]; rewrite E in Hs; [discriminate|].
    rewrite (main_parse_stop argv t s E).
    now apply (prints_no_output_calls (banner K ++ t)).
Qed.

(** X17.  Without arguments [main] runs the voice test on the defaults
    (8 voices, 10 s, the header's rate, burst size and target load) when
    the header defaults pass validation, that is when the target
    percentage lies in [1, 100], MAX_VOICES is at least 8 and the default
    burst has at least 4 frames; otherwise it returns 1 without a run. *)
Theorem no_arguments_default_run (argv : list string) :
  tl argv = [] ->
  (1 <= TARGET_CPU_PERCENT K <= 100 /\ 8 <= SYNTHMARK_MAX_VOICES K
   /\ 4 <= SYNTHMARK_FRAMES_PER_BURST K ->
   constructed (trace (main K argv)) = [VoiceMark]
   /\ test_runs (trace (main K argv))
      = [(SYNTHMARK_SAMPLE_RATE K, SYNTHMARK_FRAMES_PER_BURST K, 10)]
   /\ calls (trace (main K argv))
      = [CallSetRequestedCpu (SYNTHMARK_CPU_UNSPECIFIED K);
         Construct VoiceMark;
         CallSetTargetCpuLoad
           (PrimFloat.mul (double_of_int (TARGET_CPU_PERCENT K)) lit_0_01);
         CallSetInitialVoiceCount 8;
         CallSetNumVoices 8;
         CallSetDelayNotesOn 0;
         CallRunTest
           (setDelayNotesOn 0
              (setNumVoices 8
                 (setInitialVoiceCount 8
                    (setTargetCpuLoad
                       (PrimFloat.mul (double_of_int (TARGET_CPU_PERCENT K))
                          lit_0_01)
                       (new_harness VoiceMark
                          (setRequestedCpu (SYNTHMARK_CPU_UNSPECIFIED K)
                             new_sink))))))
           (SYNTHMARK_SAMPLE_RATE K) (SYNTHMARK_FRAMES_PER_BURST K) 10])
  /\ (~ (1 <= TARGET_CPU_PERCENT K <= 100 /\ 8 <= SYNTHMARK_MAX_VOICES K
         /\ 4 <= SYNTHMARK_FRAMES_PER_BURST K) ->
      rejected (main K argv)).
Proof.
  intros Hnil.
  assert (Hs : settings K argv = Some (initial_config K))
    by (unfold settings; now rewrite Hnil).
  assert (Hv : valid K (initial_config K) = true
               <-> 1 <= TARGET_CPU_PERCENT K <= 100
                   /\ 8 <= SYNTHMARK_MAX_VOICES K
                   /\ 4 <= SYNTHMARK_FRAMES_PER_BURST K).
  { rewrite valid_arith.
    cbv [initial_config DEFAULT_PERCENT_CPU DEFAULT_FRAMES_PER_BURST
         DEFAULT_SECONDS DEFAULT_NUM_VOICES DEFAULT_NOTE_ON_DELAY
         DEFAULT_TEST_CODE
         percentCpu sampleRate framesPerBurst numSeconds numVoices
         numVoicesHigh numSecondsDelayNoteOn cpuAffinity testCode].
    intuition lia. }
  split.
  - intros Hok. apply Hv in Hok.
    destruct (main_runs K argv _ VoiceMark Hs Hok eq_refl) as (h & Hc & Hr & _).
    split; [exact Hc|]. split; [exact Hr|].
    exact (proj1 (main_run_shape argv _ VoiceMark Hs Hok eq_refl)).
  - intros Hbad. apply idle_rejected, (main_rejected K argv _ Hs).
    destruct (valid K (initial_config K)); [|reflexivity].
    destruct Hbad. now apply Hv.
Qed.

(** X18.  The defaults that the usage text announces are the values in
    force when the switch is absent: for the test code, the voice count,
    the note-on delay, the target percentage, the sample rate, the
    duration and the burst size, a command line that does not mention the
    switch is run with the very value printed on the switch's usage
    line. *)
Theorem usage_announces_defaults (argv : list string) (cfg : Config) :
  settings K argv = Some cfg ->
  let lines := usage_text K (hd "" argv) in
  (mentions "t" (tl argv) = false ->
   In (Printf
         "    -t{test}, v=voice, l=latency, j=jitter, u=utilization, default is %c\n"
         [AChar (testCode cfg)]) lines)
  /\ (mentions "n" (tl argv) = false ->
      In (Printf "    -n{numVoices} to render, default = %d\n"
            [AInt (numVoices cfg)]) lines)
  /\ (mentions "d" (tl argv) = false ->
      In (Printf
            "    -d{noteOnDelay} seconds to delay the first NoteOn, default = %d\n"
            [AInt (numSecondsDelayNoteOn cfg)]) lines)
  /\ (mentions "p" (tl argv) = false ->
      In (Printf "    -p{percentCPU} target load, default = %d\n"
            [AInt (percentCpu cfg)]) lines)
  /\ (mentions "r" (tl argv) = false ->
      In (Printf
            "    -r{sampleRate} should be typical, 44100, 48000, etc. default is %d\n"
            [AInt (sampleRate cfg)]) lines)
  /\ (mentions "s" (tl argv) = false ->
      In (Printf
            "    -s{seconds} to run the test, latencyMark may take longer, default is %d\n"
            [AInt (numSeconds cfg)]) lines)
  /\ (mentions "b" (tl argv) = false ->
      In (Printf
            "    -b{burstSize} frames read by virtual hardware at one time , default = %d\n"
            [AInt (framesPerBurst cfg)]) lines).
Proof.
  intros Hs lines. subst lines. apply settings_parse in Hs.
  pose proof (parse_args_next K _ _ _ _ _ Hs) as Hall.
  rewrite (parse_args_settings K _ _ _ Hall) in Hs. injection Hs as <-.
  destruct (settings_fold_keeps K (hd "" argv) (tl argv) (initial_config K) Hall)
    as (_ & Hp & Hn & _ & Hd & Hr & Hsec & Hb & Ht).
  repeat match goal with |- _ /\ _ => split end; intros Hm.
  - rewrite (Ht Hm). cbn. tauto.
  - rewrite (Hn Hm). cbn. tauto.
  - rewrite (Hd Hm). cbn. tauto.
  - rewrite (Hp Hm). cbn. tauto.
  - rewrite (Hr Hm). cbn. tauto.
  - rewrite (Hsec Hm). cbn. tauto.
  - rewrite (Hb Hm). cbn. tauto.
Qed.

End WholeRun.

(** ** Concrete runs for the properties above *)

(** A stray word, the empty string and a lone dash each stop the run with
    their own line, before the [-h] that follows is looked at. *)
Lemma unrecognized_argument_stops_run :
  Sample.run ["synthmark"; "-n4"; "stray"; "-h"]
  = ((banner Sample.header
        ++ Printf "Unrecognized argument: %s\n" [AStr "stray"]
        :: usage_text Sample.header "synthmark")%list, Return 1)
  /\ Sample.run ["synthmark"; ""; "-h"]
     = ((banner Sample.header
           ++ Printf "Unrecognized argument: %s\n" [AStr ""]
           :: usage_text Sample.header "synthmark")%list, Return 1)
  /\ Sample.run ["synthmark"; "-"; "-h"]
     = ((banner Sample.header
           ++ Printf "Unrecognized switch: %s\n" [AStr "-"]
           :: usage_text Sample.header "synthmark")%list, Return 1).
Proof.
  split; [|split].
  - apply (@unrecognized_argument_stops Sample.header Sample.lib
             "synthmark" ["-n4"] "stray" ["-h"]); reflexivity.
  - apply (@unrecognized_argument_stops Sample.header Sample.lib
             "synthmark" [] "" ["-h"]); reflexivity.
  - apply (@unrecognized_argument_stops Sample.header Sample.lib
             "synthmark" [] "-" ["-h"]); reflexivity.
Defined.

(** [-n4 -n9] runs as [-n9]. *)
Lemma repeated_setting_last_wins_run :
  Sample.run ["synthmark"; "-tj"; "-n4"; "-n9"; "-s2"]
  = Sample.run ["synthmark"; "-tj"; "-n9"; "-s2"].
Proof.
  apply (@repeated_setting_last_wins Sample.header Sample.lib
           "synthmark" ["-tj"] "-n4" "-n9" ["-s2"]); reflexivity.
Defined.

(** [-n4 -s3] runs as [-s3 -n4]. *)
Lemma distinct_settings_commute_run :
  Sample.run ["synthmark"; "-n4"; "-s3"] = Sample.run ["synthmark"; "-s3"; "-n4"].
Proof.
  apply (@distinct_settings_commute Sample.header Sample.lib
           "synthmark" [] "-n4" "-s3" []).
  - reflexivity.
  - reflexivity.
  - cbn. discriminate.
Defined.

(** With [-n4] alone the duration is still 10 s and the test code 'v'. *)
Lemma untouched_settings_keep_defaults_run :
  numSeconds (set_numVoices 4 (initial_config Sample.header)) = 10
  /\ testCode (set_numVoices 4 (initial_config Sample.header)) = "v"%char.
Proof.
  destruct (@untouched_settings_keep_defaults Sample.header Sample.lib
              ["synthmark"; "-n4"]
              (set_numVoices 4 (initial_config Sample.header)) eq_refl)
    as (_ & _ & _ & _ & _ & _ & Hs & _ & Ht).
  split; [exact (Hs eq_refl) | exact (Ht eq_refl)].
Defined.

(** [-tlatency] selects the latency test; a bare [-t] is turned down. *)
Lemma test_code_is_first_character_run :
  Sample.parsed ["synthmark"; "-tlatency"]
  = Some (set_testCode "l" (initial_config Sample.header))
  /\ rejected (Sample.run ["synthmark"; "-t"]).
Proof.
  destruct (@test_code_is_first_character Sample.header Sample.lib
              "synthmark" [] (initial_config Sample.header) eq_refl)
    as (Hfirst & _ & Hbare).
  split; [exact (Hfirst "l"%char "atency") | exact Hbare].
Defined.

(** [-n12abc] runs as [-n12]. *)
Lemma number_suffix_ignored_run :
  Sample.run ["synthmark"; "-n12abc"; "-tj"] = Sample.run ["synthmark"; "-n12"; "-tj"].
Proof.
  apply (@number_suffix_ignored Sample.header Sample.lib
           "synthmark" [] "n" "12" "abc" ["-tj"]); reflexivity.
Defined.


(** With a bad percentage and a bad voice count, the percentage is the
    one reported. *)
Lemma first_failure_reported_run :
  Sample.run ["synthmark"; "-n0"; "-p0"]
  = ((banner Sample.header
        ++ Printf "Invalid percent CPU = %d\n" [AInt 0]
        :: usage_text Sample.header "synthmark")%list, Return 1).
Proof.
  refine (proj1 (@first_failure_reported Sample.header Sample.lib
                   ["synthmark"; "-n0"; "-p0"]
                   (set_percentCpu 0 (set_numVoices 0 (initial_config Sample.header)))
                   _) _); reflexivity.
Defined.


(** The sample header's defaults pass: no arguments run the voice test. *)
Lemma no_arguments_default_run_run :
  constructed (trace (Sample.run ["synthmark"])) = [VoiceMark]
  /\ test_runs (trace (Sample.run ["synthmark"])) = [(48000, 64, 10)].
Proof.
  destruct (proj1 (@no_arguments_default_run Sample.header Sample.lib
                     ["synthmark"] eq_refl))
    as (Hc & Hr & _).
  - cbn. lia.
  - split; [exact Hc | exact Hr].
Defined.

(** The usage line for [-s] shows 10, the duration of a run without [-s]. *)
Lemma usage_announces_defaults_run :
  In (@Printf Sample.lib
        "    -s{seconds} to run the test, latencyMark may take longer, default is %d\n"
        [AInt (numSeconds (set_numVoices 4 (initial_config Sample.header)))])
     (usage_text Sample.header "synthmark").
Proof.
  destruct (@usage_announces_defaults Sample.header Sample.lib
              ["synthmark"; "-n4"]
              (set_numVoices 4 (initial_config Sample.header)) eq_refl)
    as (_ & _ & _ & _ & _ & Hs & _).
  exact (Hs eq_refl).
Defined.
